(** * Hubbard tutorials: the TBtrans input file, the notebooks and the
      documented mean-field Hamiltonian

    The repository material under study is static: a TBtrans/TranSiesta
    input file in fdf format ([RUN.fdf], the file the third tutorial
    refers to), three Jupyter notebooks and a Sphinx examples page.  The
    development embeds each artifact verbatim as data (lines of text, cells
    of lines) and reads it with small executable scanners: a line scanner
    for the fdf block structure, a word scanner for the Python code cells
    and a recursive-descent reader for the LaTeX equation. *)

From Stdlib Require Import String Ascii List Bool Arith ZArith Lia.
Import ListNotations.
Open Scope string_scope.

(* ================================================================== *)
(** ** Text helpers *)

Module Text.

(** Blank characters: space, tab, carriage return, line feed. *)
Definition is_space (c : ascii) : bool :=
  ((c =? " ") || (c =? "009") || (c =? "013") || (c =? "010"))%char.

Definition is_lower (c : ascii) : bool := (("a" <=? c) && (c <=? "z"))%char.
Definition is_upper (c : ascii) : bool := (("A" <=? c) && (c <=? "Z"))%char.
Definition is_digit (c : ascii) : bool := (("0" <=? c) && (c <=? "9"))%char.
Definition is_alpha (c : ascii) : bool := is_lower c || is_upper c.

(** Characters of a Python identifier or number. *)
Definition is_ident (c : ascii) : bool :=
  is_alpha c || is_digit c || (c =? "_")%char.

(** The double-quote character, written by code so that no literal has
    to escape it. *)
Definition dquote : string := String (ascii_of_nat 34) EmptyString.

Definition flush (cur : string) : list string :=
  match cur with EmptyString => [] | _ => [cur] end.

(** [runs keep s cur]: the maximal runs of characters satisfying [keep],
    in order; [cur] is the run being read. *)
Fixpoint runs (keep : ascii -> bool) (s cur : string) : list string :=
  match s with
  | EmptyString => flush cur
  | String c r =>
      if keep c then runs keep r (cur ++ String c EmptyString)
      else (flush cur ++ runs keep r EmptyString)%list
  end.

(** Whitespace-separated fields of a line, as Python's [str.split()]. *)
Definition split (s : string) : list string :=
  runs (fun c => negb (is_space c)) s EmptyString.

(** Identifier-like words of a line: runs of letters, digits and [_]. *)
Definition idents (s : string) : list string :=
  runs is_ident s EmptyString.

Fixpoint lstrip (s : string) : string :=
  match s with
  | String c r => if is_space c then lstrip r else s
  | EmptyString => EmptyString
  end.

Definition is_blank (s : string) : bool :=
  match lstrip s with EmptyString => true | _ => false end.

(** [contains needle hay]: [needle] occurs in [hay]. *)
Definition contains (needle hay : string) : bool :=
  match index 0 needle hay with Some _ => true | None => false end.

Definition mem (x : string) (l : list string) : bool :=
  existsb (String.eqb x) l.

Definition disjoint (l1 l2 : list string) : bool :=
  forallb (fun x => negb (mem x l2)) l1.

Definition last_char (s : string) : option ascii :=
  match String.length s with
  | O => None
  | S n => get n s
  end.

End Text.

(* ================================================================== *)
(** ** The TBtrans input file *)

Module Fdf.
Import Text.

(** The 43 lines of the input file, in order, line terminators dropped.
    Line 40 holds a single space. *)
Definition RUN_fdf : list string :=
  [ "SystemLabel device"
  ; ""
  ; "TBT.HS MFH_HC.nc"
  ; ""
  ; "%block TBT.Contours"
  ; "  window"
  ; "%endblock"
  ; ""
  ; "%block TBT.Contour.window"
  ; " part line"
  ; "   from -10.0 eV to 10.0 eV"
  ; "    delta 0.01 eV"
  ; "     method mid-rule"
  ; "%endblock"
  ; ""
  ; "%block TS.Elecs"
  ; "  HGNRA"
  ; "  HGNRB"
  ; "%endblock TS.Elecs"
  ; ""
  ; "%block TS.Elec.HGNRA"
  ; "  TSHS MFH_elec.nc"
  ; "  chem-pot POT"
  ; "  semi-inf-dir -a1"
  ; "  elec-pos begin 1"
  ; "%endblock TS.Elec.HGNRA"
  ; ""
  ; "%block TS.Elec.HGNRB"
  ; "  TSHS MFH_elec.nc"
  ; "  chem-pot POT"
  ; "  semi-inf-dir +a1"
  ; "  elec-pos end -1"
  ; "%endblock TS.Elec.HGNRB"
  ; ""
  ; "TBT.Voltage    0.00000 eV"
  ; ""
  ; "%block TBT.ChemPots"
  ; "  POT"
  ; "%endblock TS.ChemPots"
  ; " "
  ; "%block TBT.ChemPot.POT"
  ; "  mu V/2"
  ; "%endblock TS.ChemPot.POT"
  ].

(** *** Lines *)

(** What one line of an fdf file is, read on its own: blank, an entry
    (a keyword and its value fields), a [%block <label>] or
    [%endblock [<label>]] directive, or none of these. *)
Inductive line_role :=
| Blank
| Entry (key : string) (value : list string)
| Open (label : string)
| Close (label : option string)
| Malformed.

Definition classify (l : string) : line_role :=
  match split l with
  | [] => Blank
  | w :: rest =>
      if w =? "%block" then
        match rest with [lab] => Open lab | _ => Malformed end
      else if w =? "%endblock" then
        match rest with
        | [] => Close None
        | [lab] => Close (Some lab)
        | _ => Malformed
        end
      else if prefix "%" w then Malformed
      else Entry w rest
  end.

(** *** Blocks and top-level items *)

Record block := mkBlock
  { opened : string                 (* label after %block *)
  ; closed : option string          (* label after %endblock, if any *)
  ; body : list (string * list string) (* the entries between them *)
  }.

Inductive item :=
| Keyword (key : string) (value : list string)
| Section_ (b : block).

(** Reader state: the items completed so far (latest first) and the
    block being read, if any, with its entries (latest first). *)
Record reader := mkReader
  { items_rev : list item
  ; current : option (string * list (string * list string))
  }.

(** The reader is inside a block. *)
Definition inside (st : reader) : bool :=
  match current st with Some _ => true | None => false end.

Definition step (st : reader) (l : string) : option reader :=
  match classify l, current st with
  | Malformed, _ => None
  | Blank, _ => Some st
  | Open lab, None => Some (mkReader (items_rev st) (Some (lab, [])))
  | Open _, Some _ => None
  | Close lab, Some (o, es) =>
      Some (mkReader (Section_ (mkBlock o lab (rev es)) :: items_rev st) None)
  | Close _, None => None
  | Entry k v, None => Some (mkReader (Keyword k v :: items_rev st) None)
  | Entry k v, Some (o, es) =>
      Some (mkReader (items_rev st) (Some (o, (k, v) :: es)))
  end.

Fixpoint read (st : reader) (ls : list string) : option reader :=
  match ls with
  | [] => Some st
  | l :: r => match step st l with Some st' => read st' r | None => None end
  end.

(** The items of a file; [None] when a block is nested, closed without
    being open, left open at the end, or a directive is malformed. *)
Definition parse (ls : list string) : option (list item) :=
  match read (mkReader [] None) ls with
  | Some st =>
      match current st with
      | None => Some (rev (items_rev st))
      | Some _ => None
      end
  | None => None
  end.

Definition blocks (its : list item) : list block :=
  flat_map (fun it => match it with Section_ b => [b] | Keyword _ _ => [] end) its.

Definition keywords (its : list item) : list (string * list string) :=
  flat_map (fun it => match it with Keyword k v => [(k, v)] | Section_ _ => [] end) its.

(** The lines of a file that lie outside every block; the [%block] and
    [%endblock] lines belong to their block. *)
Fixpoint outside (inside : bool) (ls : list string) : list string :=
  match ls with
  | [] => []
  | l :: r =>
      match classify l with
      | Open _ => outside true r
      | Close _ => outside false r
      | _ => if inside then outside inside r else l :: outside inside r
      end
  end.

(** A keyword/value line: a keyword that is no [%] directive, followed by
    at least one value field. *)
Definition is_keyword_value (l : string) : bool :=
  match classify l with
  | Entry _ (_ :: _) => true
  | _ => false
  end.

(** *** Lookups *)

Definition find_block (lab : string) (its : list item) : option block :=
  find (fun b => opened b =? lab) (blocks its).

Definition find_keyword (k : string) (its : list item) : option (list string) :=
  option_map snd (find (fun kv => fst kv =? k) (keywords its)).

Definition lookup (k : string) (b : block) : option (list string) :=
  option_map snd (find (fun kv => fst kv =? k) (body b)).

(** The names a list block enumerates, one per entry. *)
Definition names (b : block) : list string := map fst (body b).

Definition names_of (lab : string) (its : list item) : list string :=
  match find_block lab its with Some b => names b | None => [] end.

Definition electrode_names (its : list item) : list string := names_of "TS.Elecs" its.
Definition chempot_names (its : list item) : list string := names_of "TBT.ChemPots" its.
Definition contour_names (its : list item) : list string := names_of "TBT.Contours" its.

Definition electrode_block (its : list item) (n : string) : option block :=
  find_block ("TS.Elec." ++ n) its.
Definition chempot_block (its : list item) (n : string) : option block :=
  find_block ("TBT.ChemPot." ++ n) its.

(** *** The file as read *)

(** The items of [RUN_fdf]; empty if the file did not read. *)
Definition RUN : list item :=
  match parse RUN_fdf with Some its => its | None => [] end.

(** [%block] and [%endblock] alternate, starting with [%block] and ending
    closed: no block is nested and none is left open. *)
Fixpoint alternates (inside : bool) (ls : list string) : bool :=
  match ls with
  | [] => negb inside
  | l :: r =>
      match classify l with
      | Open _ => negb inside && alternates true r
      | Close _ => inside && alternates false r
      | Malformed => false
      | _ => alternates inside r
      end
  end.

(** *** What the items describe *)

(** The things the file is said to specify. *)
Inductive content :=
| System_label
| HS_reference
| Contour_window
| Electrodes
| Voltage
| ChemPot_bias.

Definition is_contour_label (lab : string) : bool :=
  (lab =? "TBT.Contours") || prefix "TBT.Contour." lab.
Definition is_electrode_label (lab : string) : bool :=
  (lab =? "TS.Elecs") || prefix "TS.Elec." lab.
Definition is_chempot_label (lab : string) : bool :=
  (lab =? "TBT.ChemPots") || prefix "TBT.ChemPot." lab.

Definition describes (it : item) : option content :=
  match it with
  | Keyword k _ =>
      if k =? "SystemLabel" then Some System_label
      else if k =? "TBT.HS" then Some HS_reference
      else if k =? "TBT.Voltage" then Some Voltage
      else None
  | Section_ b =>
      if is_contour_label (opened b) then Some Contour_window
      else if is_electrode_label (opened b) then Some Electrodes
      else if is_chempot_label (opened b) then Some ChemPot_bias
      else None
  end.

Definition all_content : list content :=
  [System_label; HS_reference; Contour_window; Electrodes; Voltage; ChemPot_bias].

(** A quantity with its unit, as written. *)
Definition quantity : Type := string * string.

(** The integration window of a contour block:
    [from <start> <unit> to <end> <unit>], [delta <step> <unit>],
    [method <rule>]. *)
Record window := mkWindow
  { w_start : quantity
  ; w_end : quantity
  ; w_step : quantity
  ; w_rule : string
  }.

Definition window_of (b : block) : option window :=
  match lookup "from" b, lookup "delta" b, lookup "method" b with
  | Some [a; ua; kw; z; uz], Some [d; ud], Some [m] =>
      if kw =? "to" then Some (mkWindow (a, ua) (z, uz) (d, ud) m) else None
  | _, _, _ => None
  end.

(** The block labels the file is expected to open, from the names its
    list blocks enumerate. *)
Definition expected_blocks (its : list item) : list string :=
  (["TBT.Contours"; "TBT.Contour.window"; "TS.Elecs"]
     ++ map (append "TS.Elec.") (electrode_names its)
     ++ ["TBT.ChemPots"]
     ++ map (append "TBT.ChemPot.") (chempot_names its))%list.

(** *** Electrodes *)

Record electrode := mkElectrode
  { hamiltonian : string        (* TSHS *)
  ; chem_pot : string           (* chem-pot *)
  ; semi_inf_dir : string       (* semi-inf-dir *)
  ; elec_pos : string * string  (* elec-pos: anchor (begin/end) and atom index *)
  }.

Definition electrode_of (b : block) : option electrode :=
  match lookup "TSHS" b, lookup "chem-pot" b,
        lookup "semi-inf-dir" b, lookup "elec-pos" b with
  | Some [h], Some [c], Some [d], Some [anchor; idx] =>
      Some (mkElectrode h c d (anchor, idx))
  | _, _, _, _ => None
  end.

Definition electrode_named (its : list item) (n : string) : option electrode :=
  match electrode_block its n with
  | Some b => electrode_of b
  | None => None
  end.

(** Two semi-infinite directions are opposite: same lattice vector,
    one sign [+] and the other [-]. *)
Definition opposite (d1 d2 : string) : bool :=
  match d1, d2 with
  | String s1 a1, String s2 a2 =>
      (a1 =? a2) &&
      ((((s1 =? "+") && (s2 =? "-")) || ((s1 =? "-") && (s2 =? "+")))%char)
  | _, _ => false
  end.

(** *** Decimal literals *)

Definition digit_value (c : ascii) : option Z :=
  if is_digit c then Some (Z.of_nat (nat_of_ascii c) - 48)%Z else None.

(** [digits s acc frac seen]: reads an unsigned decimal literal with at
    most one point; returns the digits as an integer and the number of
    digits after the point. *)
Fixpoint digits (s : string) (acc : Z) (frac : nat) (point : bool)
  : option (Z * nat) :=
  match s with
  | EmptyString => Some (acc, frac)
  | String c r =>
      if (c =? ".")%char then
        if point then None else digits r acc frac true
      else
        match digit_value c with
        | Some d => digits r (10 * acc + d)%Z (if point then S frac else frac) point
        | None => None
        end
  end.

(** A decimal literal [m] with [k] fractional digits stands for
    [m / 10^k]. *)
Definition decimal (s : string) : option (Z * nat) :=
  match s with
  | EmptyString => None
  | String "-" r =>
      match digits r 0%Z 0 false with
      | Some (m, k) => Some ((- m)%Z, k)
      | None => None
      end
  | String "+" r => digits r 0%Z 0 false
  | _ => digits s 0%Z 0 false
  end.

(** The bias voltage of the file, as a decimal and its unit. *)
Definition voltage (its : list item) : option ((Z * nat) * string) :=
  match find_keyword "TBT.Voltage" its with
  | Some [v; u] =>
      match decimal v with Some d => Some (d, u) | None => None end
  | _ => None
  end.

(** *** Closing labels *)

Definition labelled (b : block) : bool :=
  match closed b with Some _ => true | None => false end.

Definition label_matches (b : block) : bool :=
  match closed b with Some c => c =? opened b | None => false end.

(** *** Cross references *)

Definition defined (ob : option block) : bool :=
  match ob with Some _ => true | None => false end.

(** The chemical-potential names the electrode blocks refer to: the
    [chem-pot] values of every [TS.Elec.<name>] block. *)
Definition chempot_references (its : list item) : list string :=
  flat_map
    (fun b => if prefix "TS.Elec." (opened b) then
                match lookup "chem-pot" b with
                | Some vs => vs
                | None => []
                end
              else [])
    (blocks its).

Definition defines_mu (ob : option block) : bool :=
  match ob with
  | Some b => match lookup "mu" b with Some (_ :: _) => true | _ => false end
  | None => false
  end.

End Fdf.

(* ================================================================== *)
(** ** The tutorial notebooks *)

Module Notebook.
Import Text.

Inductive cell_type := code | markdown.

(** A cell: its type and its [source] text, one string per line (the
    JSON array joined and cut at the line feeds). *)
Record cell := mkCell
  { kind : cell_type
  ; source : list string
  }.

Definition notebook : Type := list cell.

(** The cells of [tutorials/MFH_1/run.ipynb] (isolated structures). *)
Definition MFH_1 : notebook :=
  [ mkCell code
      [ "import sisl"
      ; "import hubbard as hubb"
      ; "import hubbard.sp2 as sp2"
      ; "import hubbard.density as density"
      ; "import hubbard.plot as plot"
      ; "%matplotlib inline" ]
  ; mkCell markdown
      [ "# Isolated structures (molecules)"
      ; ""
      ; "In this example we study the effect of on-site Coulomb interactions for electrons in a carbon-based molecular geometry by solving the mean-field Hubbard equation using the `hubbard` package."
      ; ""
      ; "We will use the molecule of ref. [Nature Communications 10, 200 (2019)](https://www.nature.com/articles/s41467-018-08060-6) and compare the simulation with the experimental system."
      ; ""
      ; "You can find the molecular geometry in the file `junction-2-2.XV`." ]
  ; mkCell markdown
      [ "### Getting started:"
      ; ""
      ; "We will start by building the tight-binding (TB) Hamiltonian for an sp2 carbon-based molecule, by first reading the geometry file using `sisl`. To build the TB Hamiltonian (which describes the kinetic part of the system's Hamiltonian) we will use the function from the `hubbard` package `sp2` that builds the TB `sisl.Hamiltonian` of an sp2 carbon system. In particular, we will use the set of parameters `t1=2.7`,`t2=0.2` and `t3=0.18` eV to model this Hamiltonian." ]
  ; mkCell code
      [ "# Build sisl.Geometry object from the 'XV' file"
      ; "geom = sisl.get_sile('junction-2-2.XV').read_geometry()"
      ; ""
      ; "# Build sisl.Hamiltonian object using the sp2 function"
      ; "Hsp2 = sp2(geom, t1=2.7, t2=0.2, t3=0.18)" ]
  ; mkCell markdown
      [ "We will build the `HubbardHamiltonian` object, which will enable the routines to iterate the mean field Hubbard Hamiltonian until it finds the self-consistent solution (convergence). To model the interaction part (Hubbard term) we will use `U=3.5` eV. You can find the parameters used to build the full Hamiltonian (both the kinetic and interaction parts) in the [Supp. Material](https://www.nature.com/articles/s41467-018-08060-6#Sec12) of the [paper referenced above](https://www.nature.com/articles/s41467-018-08060-6) and references therein."
      ; ""
      ; ""
      ; "For more information type:"
      ; ""
      ; "```"
      ; "help(hubb.HubbardHamiltonian)"
      ; "```" ]
  ; mkCell code
      [ "# Build the HubbardHamiltonian object with U=3.5 at a temperature of kT~0 in units of the Boltzmann constant"
      ; "HH = hubb.HubbardHamiltonian(Hsp2, U=3.5, kT=1e-5)" ]
  ; mkCell markdown
      [ "##### Important note before starting the convergence process"
      ; "It is important to initialize the convergence of the `HubbardHamiltonian` object with an initial spin-density distribution that breaks the symmetry between the up- and down- spin channels. Otherwise the code *will not be able to find a solution*."
      ; "Furthermore, the closer the initial spin-densities are to the self-consistent solution, the faster the code will find it." ]
  ; mkCell code
      [ "# Firstly we have to initialize the spin-densities distribution (polarization)"
      ; "# The polarization can be tuned by using the following function to start with a"
      ; "# specific up- and down-spin density distribution. In this case we will start"
      ; "# by placing up-spin components at atomic postion 77 and down-spin components at position 23"
      ; "HH.set_polarization([77], dn=[23])" ]
  ; mkCell markdown
      [ "Now we can start the convergence process by calling the `HubbardHamiltonian.converge` method. It will iterate until it finds the self-consistent solution up to a desired tolerance (`tol`). This method needs as a mandatory argument another function that returns the spin-densities. Depending on the system or the boundary conditions, the spin-densities will be obtained differently. For instance, to compute the spin-densities for TB Hamiltonians of *finite (isolated) or periodic* structures, one can use the method `hubbard.density.calc_n`."
      ; ""
      ; "Type:"
      ; ""
      ; "```"
      ; "help(hubb.HubbardHamiltonian.converge)"
      ; "```"
      ; "and/or"
      ; ""
      ; "```"
      ; "help(density.calc_n)"
      ; "```"
      ; ""
      ; "for more information." ]
  ; mkCell code
      [ "# Converge until a tolerance of tol=1e-10"
      ; "# With print_info=True it prints (dn,  Etot) for each 10 iterations"
      ; "# where dn is the spin-densities difference between last and current iteration and Etot is the total energy"
      ; "dn = HH.converge(density.calc_n, tol=1e-10, print_info=True, steps=10)" ]
  ; mkCell markdown
      [ "##### Understanding the final results"
      ; "During the iteration process the total energy has also been calculated. Now that the convergence has been achieved, the total energy for the self-consistent solution is stored in the `HubbardHamiltonian` object. We can save this value to compare it with further calculations." ]
  ; mkCell code
      [ "# Save total energy"
      ; "E_0 =  HH.Etot"
      ; "print(f" ++ dquote ++ "Total energy = {E_0}" ++ dquote ++ ")" ]
  ; mkCell markdown
      [ "Also, we can visualize some meaningful physical quantities and properties of the solution, e.g. such as the spin polarization. Other interesting electronic properties can be visualized using the `hubbard.plot` module (take a look at the exercises section below)" ]
  ; mkCell code
      [ "# Let's visualize some relevant physical quantities of the final result (this process may take a few seconds)"
      ; "# By passing the argument ext_geom one can plot the spin polarization using the full geometry for the sp2 system"
      ; "# e.g. including Hydrogen atoms. Otherwise it only displays the carbon backbone (pi-network) structure"
      ; "p = plot.SpinPolarization(HH, colorbar=True, vmax=0.4, vmin=-0.4, ext_geom=geom)"
      ; "p.annotate()" ]
  ; mkCell markdown
      [ "##### Using output of the mean-field Hubbard model to start SIESTA calculation"
      ; "The `hubbard` package can be used to give a starting spin-density distribution for a more accurate spin polarized [SIESTA](https://gitlab.com/siesta-project/siesta) calculation, by writing the spin densities to a `fdf-block`:" ]
  ; mkCell code
      [ "# Write the self-consistent solution of the mean-field Hubbard calculation"
      ; "# to an input file for a SIESTA calculation."
      ; "# ext_geom is the full sp2 geometry that includes the Hydrogen atoms,"
      ; "# otherwise it uses only the carbon backbone structure (pi-network) stored in the Hsp2 Hamiltonian"
      ; "HH.write_initspin('init-spin.fdf', ext_geom=geom)" ]
  ; mkCell markdown
      [ "## Try it yourself"
      ; ""
      ; "#### Simulation of the singlet-triplet transtition energy"
      ; ""
      ; "Now you can use the `hubbard` capabilities to perform further simulations on the molecule from the example above."
      ; "In absence of specifications, since the molecule has an even number of total electrons, the charge associated to the up- and down-spin channels is equal (`ntot/2`)."
      ; "Therefore, we have just found the antiferromagnetic solution. "
      ; "But we can manipulate and compute the solution for the ferromagnetic case (or other magnetic states), by imposing an imbalance between up- and down-spin components. "
      ; ""
      ; "To find the ferromagnetic solution one just have to do:"
      ; ""
      ; "```"
      ; "HH.q[0] += 1"
      ; "HH.q[1] -= 1"
      ; "```"
      ; ""
      ; "and converge again."
      ; ""
      ; "You can now plot the spin polarization of the ferromagnetic solution and compare with the previous solution."
      ; ""
      ; "Now compare the total energies, this will tell you which solution is the ground state."
      ; ""
      ; "##### Extra material:"
      ; "You can go to the [Supp. Material](https://www.nature.com/articles/s41467-018-08060-6#Sec12) of the [referenced paper above](https://www.nature.com/articles/s41467-018-08060-6), and try to reproduce other results, e.g. such as the singlet triplet transition curve as a function of the Coulomb parameter `U`, the wavefunctions for each spin-channel, etc." ]
  ; mkCell code []
  ].

(** The cells of the notebook on periodic structures, the one the other
    two link to as [../MFH_2/run.ipynb]. *)
Definition MFH_2 : notebook :=
  [ mkCell code
      [ "import sisl"
      ; "import hubbard as hubb"
      ; "import hubbard.sp2 as sp2"
      ; "import hubbard.density as density"
      ; "import hubbard.plot as plot"
      ; "%matplotlib inline" ]
  ; mkCell markdown
      [ "# Periodic structures (perfect crystals, Bloch’s theorem) "
      ; ""
      ; "In this example we will reproduce the results of Ref. [Phys. Rev. B 81, 245402 (2010)](https://journals.aps.org/prb/abstract/10.1103/PhysRevB.81.245402). We will study the effect of on-site Coulomb interactions for electrons in a periodic 1D system by solving the mean-field Hubbard equation using the `hubbard` package."
      ; ""
      ; "Consider, for instance, the case of the zigzag graphene nanoribbon 16 C-atoms across width (which we will call 16-ZGNR) with the parameters of set D (see Table I of the [Ref. paper](https://journals.aps.org/prb/abstract/10.1103/PhysRevB.81.245402)). This is, `t1=2.7`, `t2=0.2`, `t3=0.18` eV for the kinetic part (TB Hamiltonian), and `U=2.0` eV for the interaction part (Hubbard term)."
      ; ""
      ; "Firstly we build the geometry of the unit cell of the 16-ZGNR with appropiate cell dimensions to have periodicity, e.g., along the $x$-axis direction and no coupling in any other direction." ]
  ; mkCell code
      [ "# You can use the predefined function of sisl to build the unit cell of a 16-ZGNR:"
      ; "geom = sisl.geom.zgnr(16)"
      ; ""
      ; "# This function returns a periodic ZGNR along the x-axis (sisl.Geometry object)."
      ; "print(geom)" ]
  ; mkCell markdown
      [ "Now you have to build the TB Hamiltonian, just as in the case of example [MFH 1](../MFH_1/run.ipynb). Again, you can make use of the function `sp2` of the `hubbard` package, which will return the `sisl.Hamiltonian` object that we need to build the  `hubb.HubbardHamiltonian`." ]
  ; mkCell code
      [ "# Build sisl.Hamiltonian object using the sp2 function with the specific hopping parameters"
      ; "Hsp2 = sp2(...)" ]
  ; mkCell markdown
      [ "In this case, since the system has periodic boundary conditions, the Hamiltonian has to be diagonalized per $\mathbf k$-point and then integrated to find the spin-densities. To do so you just need to pass the argument `nkpt=[nkx, nky, nkz]` when creating the `hubb.HubabrdHamiltonian(...)` object. This argument will set the number of $\mathbf k$-points along each direction in which the Hamiltonian will be sampled in k-space. I.e. if the system is periodic only along the $x$-axis, you should pass something like `nkpt=[nkx, 1, 1]`, where `nkx>1` (the larger this number is, the better the sampling and the slower the convergence process are)." ]
  ; mkCell code
      [ "# Build the HubbardHamiltonian object using the U value from the reference paper"
      ; "HH = hubb.HubbardHamiltonian(Hsp2, U=U, nkpt=[nkx, nky, nkz], kT=1e-5)" ]
  ; mkCell markdown
      [ "- 1. Before converging, you can plot the band structure of the pure TB Hamiltonian (`Hsp2`). One possible way is to do it with `sisl`. You can take a look at example [TB_01](https://github.com/zerothi/ts-tbt-sisl-tutorial/blob/master/TB_01/run.ipynb). In this case, the system is periodic along the $x$-axis, so you should calculate the bands like:"
      ; "```"
      ; "band = sisl.BandStructure(Hsp2, [[0., 0., 0.], [1./2, 0., 0.]], 301, [r'$\Gamma$', 'X'])"
      ; "```"
      ; ""
      ; "- 2. Now you can converge using the routine `hubb.HubbardHamiltonian.converge(...)`, just as in example [MFH 1](../MFH_1/run.ipynb). Remember to initialize the spin-densities before convergence! TIP: you can start with polarizing the lower and upper edges of the ZGNR (place up electrons on one border and down electrons on the opposite border)."
      ; ""
      ; "- 3. Finally, you can visualize relevant physical quantities, such as the spin polarization per unit-cell and the band structure of the self-consistent solution. In exercise [MFH 1](../MFH_1/run.ipynb) there is an example of how to plot the spin polarization using the `hubbard` package. To plot the bandstructure of the converged Hamiltonian you can do the same as in 1., but using the self-consistent solution stored in `HH`: "
      ; "```"
      ; "band = sisl.BandStructure(HH.H, ...)"
      ; "```"
      ; ""
      ; "For more information about plotting functionalities in the `hubbard` package you can type `help(plot)`."
      ; ""
      ; "Now you can compare the bandstructure of the system for the pure TB Hamiltonian (before convergence) and of the self-consistent solution (after convergence)."
      ; "You should see a gap opening between the valence and conduction bands with respect to the non-converged solution. Such gap is called the correlation gap, and it appears because of the interaction between electrons." ]
  ; mkCell code []
  ].

(** The cells of [tutorials/MFH_3/run.ipynb] (open quantum systems). *)
Definition MFH_3 : notebook :=
  [ mkCell code
      [ "import sisl"
      ; "import numpy as np"
      ; "import hubbard as hubb"
      ; "import hubbard.sp2 as sp2"
      ; "import hubbard.density as density"
      ; "from hubbard.negf import NEGF"
      ; "import hubbard.plot as plot"
      ; "%matplotlib inline" ]
  ; mkCell markdown
      [ "# Open quantum systems (Green’s functions)"
      ; ""
      ; "In this example we will study the effect of on-site Coulomb repulsion interactions in an open-quantum system, and find the self-consistent solution to the mean-field Hubbard Hamiltonian using the non-equilibrium Green's function (NEGF) formalism within the `hubbard` package."
      ; ""
      ; "Here we will reproduce the results presented in [Phys. Rev. B 81, 245402 (2010)](https://journals.aps.org/prb/abstract/10.1103/PhysRevB.81.245402) for the system shown in Fig. 3(a). This is, a zigzag graphene nanoribbon with a defect created by removing certain atoms in the central region. This open-quantum system is composed by a central region that contains the defect coupled to two semi-infinite leads or electrodes (left and right)."
      ; ""
      ; "We will focus on the equilibrium situation, therefore the temperature and chemical potentials of the electrodes *must coincide*. The complex contour that we use to integrate the density matrix in the `hubbard.NEGF` class is extracted from a [TranSiesta](https://gitlab.com/siesta-project/siesta) calculation performed for a temperature of `kT=0.025` eV, which we will set as common for all the composing element calculations."
      ; "" ]
  ; mkCell code
      [ "# Set U and kT for the whole calculation (use these values when needed)"
      ; "U = 2.0"
      ; "kT = 0.025" ]
  ; mkCell markdown
      [ "#### 1) Compute the electrodes "
      ; "We will start by building the tight-binding (TB) Hamiltonian for the graphene nanoribbons, which compose the electrodes (periodic boundary conditions). Then we will find their self-consistent solution by using the `hubbard` package. Look into excercise [MFH 2](../MFH_2/run.ipynb)" ]
  ; mkCell code
      [ "# Build sisl.Geometry object of a ZGNR of width W=5 C-atoms across,"
      ; "# e.g., by using the function sisl.geom.zgnr."
      ; "# This function returns the unit-cell of a periodic ZGNR along the x-axis."
      ; "ZGNR = sisl.geom.zgnr(5)"
      ; ""
      ; "# Build tight-binding Hamiltonian using sp2 function"
      ; "H_elec = sp2(ZGNR, t1=2.7, t2=0.2, t3=0.18, s1=0, s2=0, s3=0)"
      ; ""
      ; "# Build the HubbardHamiltonian object for the periodic system:"
      ; "MFH_elec = hubb.HubbardHamiltonian(H_elec, nkpt=[nkx, nky, nkz], U=U, kT=kT)"
      ; ""
      ; "# Initialize electrodes spin density"
      ; "MFH_elec.set_polarization([0], dn=[9])"
      ; ""
      ; "# Converge Electrode Hamiltonians"
      ; "dn = MFH_elec.converge(...)" ]
  ; mkCell markdown
      [ "Plot the spin polarization of the unit cell to check out the self-consistent solution." ]
  ; mkCell code
      [ "# Now we have the converged electrodes saved in the MFH_elec variable"
      ; "p = plot.SpinPolarization(MFH_elec, colorbar=True, vmax=0.4, vmin=-0.4)" ]
  ; mkCell markdown
      [ "#### 2) Build the central region"
      ; "The next step is to build the geometry of the whole device. The system is composed by a series of repetitions of the electrode and a defect in the center (scattering center). We also have to make sure that the device is finite (no periodic boundary conditions)." ]
  ; mkCell code
      [ "# Build central region TB Hamiltonian"
      ; "HC = H_elec.tile(16, axis=0)"
      ; ""
      ; "# Remove atoms in the central area to recreate the system of Fig. 3 (a) of the reference paper."
      ; "HC = HC.remove([67, 68, 69, 72, 73, 74, 77, 78, 79, 82, 83, 84, 87, 88, 89])"
      ; ""
      ; "# Make it finite"
      ; "HC.set_nsc([1, 1, 1])"
      ; ""
      ; "# Write geometry to file if one wants to visualize it"
      ; "HC.geometry.write('device.xyz')" ]
  ; mkCell markdown
      [ "#### 3) Obtain the spin-density for the open-quantum system"
      ; ""
      ; "- Create the `HubbardHamiltonian` object for the device system"
      ; ""
      ; "The `NEGF` is a class of the `hubbard` package, therefore the first step is to create the `NEGF` object for the device and electrodes. To build this object one has to pass the following arguments:"
      ; ""
      ; "- the non-converged `HubbardHamiltonian` object of the device"
      ; "- a list that contains all the electrodes in the device with its semi-infinite direction, e.g. `[(ElecA, DirA), (ElecB, DirB), ...]`. Where `ElecA`, `ElecB` stand for the names of the variables of the `HubbardHamiltonian` of the *converged* electrodes' Hamiltonians, while `DirA`, `DirB` stand for the semi-infinite direction of each electrode. Following `sisl` notation these directions can be: `-A,+A,-B,+B,-C,+C` for semi-infinite direction along the first, second or third axes (`A,B,C`), respectively. The sign indicates the sense towards the semi-infinite lead grows."
      ; "- the atomic positions of where the electrodes are mapped in the device."
      ; ""
      ; "Then you can converge the Hamiltonian of this open quantum system by using the methods of the `NEGF` class." ]
  ; mkCell code
      [ "# Create the HubbardHamiltonian for the device"
      ; "MFH_HC = hubb.HubbardHamiltonian(HC, U=U, kT=kT)"
      ; ""
      ; "# Initialize spin densities!"
      ; "# We will start with polarization on the lower and upper edges of the zigzag nanorribon:"
      ; "lower = np.where(MFH_HC.geometry.xyz[:,1] == np.amin(H_dev.geometry.xyz[:,1]))[0]"
      ; "upper = np.where(MFH_HC.geometry.xyz[:,1] == np.amax(H_dev.geometry.xyz[:,1]))[0]"
      ; "MDH_HC.set_polarization(lower, dn=upper)"
      ; ""
      ; "# Define the electrode atomic positions inside the device (in this case, the first and last blocks):"
      ; "elec_indx = [range(len(H_elec)), range(-len(H_elec), 0)]"
      ; ""
      ; "# Create the NEGF object for the device and electrodes. This class will allow you to use the methods"
      ; "# to solve open-quantum systems with the Green's function formalism"
      ; "negf = NEGF(MFH_HC, [(MFH_elec, '-A'), (MFH_elec, '+A')], elec_indx)"
      ; ""
      ; "# Use the method negf.calc_n_open to converge the device Hamiltonian:"
      ; "dn = MFH_HC.converge(negf.calc_n_open, steps=1, tol=1e-5, func_args={'qtol': 1e-4}, print_info=True)" ]
  ; mkCell code
      [ "# Now we have the converged device Hamiltonian, let's plot the spin polarization"
      ; "p = plot.SpinPolarization(H_dev, colorbar=True, vmax=0.4, vmin=-0.4)" ]
  ; mkCell markdown
      [ "## Try it yourself"
      ; ""
      ; "Having solved the mean-field Hubbard Hamiltonian with the NEGF formalism allows us to perform other interesting calculations such as transport simulations for this open quantum system. For instance, one can obtain the transmission probabilities per spin channel. "
      ; "Look into example [TB_04](https://github.com/zerothi/ts-tbt-sisl-tutorial/blob/master/TB_04/run.ipynb) for more information about how [TBtrans](https://gitlab.com/siesta-project/siesta) and [sisl](https://zerothi.github.io/sisl) can be combined. You should:"
      ; "1. Ensure that the electrodes and device Hamiltonians are shifted with respect to their Fermi levels:"
      ; ""
      ; "```python"
      ; "# Find Fermi level of the electrode:"
      ; "Ef = MFH_elec.fermi_level() # It's a list of two floats, one per each spin channel"
      ; "MFH_elec.shift(-Ef)"
      ; ""
      ; "# Shift device with its potential, this value is stored in the NEFG object after convergence:"
      ; "MFH_HC.shift(-negf.Ef)"
      ; "```"
      ; ""
      ; "2. Save each Hamiltonian in `netCDF4` format (suitable for a `TBtrans` calculation):"
      ; ""
      ; "```python"
      ; "MFH_elec.H.write('MFH_elec.nc')"
      ; "MFH_HC.H.write('MFH_HC.nc')"
      ; "```"
      ; ""
      ; "3. There is an input file (`RUN.fdf`) for `TBtrans` in this directory, you may want to use it to run `TBtrans` to obtain the transmission probabilities per spin channel, which you can extract with `sisl` and plot them." ]
  ; mkCell code []
  ].

(** The notebooks of the source set, by file. *)
Definition notebooks : list (string * notebook) :=
  [ ("tutorials/MFH_1/run.ipynb", MFH_1)
  ; ("unnamed/part_000", MFH_2)
  ; ("tutorials/MFH_3/run.ipynb", MFH_3)
  ].

Definition is_code (c : cell) : bool :=
  match kind c with code => true | markdown => false end.

Definition code_cells (nb : notebook) : list cell := filter is_code nb.
Definition markdown_cells (nb : notebook) : list cell :=
  filter (fun c => negb (is_code c)) nb.

(** Every line of every code cell of a notebook, in order. *)
Definition code_lines (nb : notebook) : list string :=
  flat_map source (code_cells nb).

Definition all_code_lines : list string :=
  flat_map (fun fn => code_lines (snd fn)) notebooks.

(** The text of a markdown cell on one line. *)
Definition prose (c : cell) : string := String.concat " " (source c).

(** *** Statements *)

(** What one line of a code cell is.  [Import_], [Assign] and [Call]
    are Python simple statements; [Magic] is an IPython line magic;
    [Other] is anything else: a compound-statement header, an indented
    line, a continuation line. *)
Inductive stmt :=
| Empty
| Comment
| Import_ (module : string)
| Magic (name : string)
| Assign (target : string)
| Call (callee : string)
| Other.

Definition is_dotted (c : ascii) : bool := is_ident c || (c =? ".")%char.

(** [span keep s]: the longest prefix of [s] in [keep] and the rest. *)
Fixpoint span (keep : ascii -> bool) (s : string) : string * string :=
  match s with
  | EmptyString => (EmptyString, EmptyString)
  | String c r =>
      if keep c then let (h, t) := span keep r in (String c h, t)
      else (EmptyString, s)
  end.

Definition statement (l : string) : stmt :=
  match l with
  | EmptyString => Empty
  | String c r =>
      if is_space c then (if is_blank l then Empty else Other)
      else if (c =? "#")%char then Comment
      else if (c =? "%")%char then Magic (fst (span is_ident r))
      else
        match split l with
        | "import" :: m :: _ => Import_ m
        | "from" :: m :: "import" :: _ :: _ => Import_ m
        | _ =>
            let (head, rest) := span is_dotted l in
            match head, lstrip rest with
            | EmptyString, _ => Other
            | _, String "=" (String "=" _) => Other
            | _, String "=" _ => Assign head
            | _, String "(" _ =>
                match last_char l with
                | Some ")"%char => Call head
                | _ => Other
                end
            | _, _ => Other
            end
        end
  end.

Definition is_statement (l : string) : bool :=
  match statement l with
  | Empty | Comment => false
  | _ => true
  end.

(** The lines of the code cells that are executed: neither empty nor
    comments. *)
Definition statements (nb : notebook) : list string :=
  filter is_statement (code_lines nb).

(** The identifier-like words of the executed lines. *)
Definition code_words (nb : notebook) : list string :=
  flat_map idents (statements nb).

Definition all_code_words : list string :=
  flat_map (fun fn => code_words (snd fn)) notebooks.

(** *** Vocabularies *)

(** Python keywords that introduce control flow: compound statements,
    jumps, conditional expressions, comprehensions, function and class
    definitions. *)
Definition control_flow_keywords : list string :=
  [ "if"; "elif"; "else"; "for"; "while"; "try"; "except"; "finally"
  ; "with"; "def"; "class"; "lambda"; "return"; "yield"; "break"
  ; "continue"; "raise"; "match"; "case"; "async"; "await"; "pass" ].

(** Python keywords of executable error handling. *)
Definition error_handling_keywords : list string :=
  [ "try"; "except"; "finally"; "raise"; "assert" ].

(** Keywords, modules and classes of concurrency, suspension and shared
    resources. *)
Definition concurrency_names : list string :=
  [ "async"; "await"; "yield"
  ; "threading"; "_thread"; "multiprocessing"; "asyncio"; "concurrent"
  ; "futures"; "subprocess"; "queue"; "sched"; "signal"; "select"
  ; "selectors"; "joblib"; "dask"; "mpi4py"; "MPI"
  ; "Thread"; "Process"; "Pool"; "ThreadPoolExecutor"
  ; "ProcessPoolExecutor"; "Lock"; "RLock"; "Semaphore"
  ; "BoundedSemaphore"; "Condition"; "Event"; "Barrier"; "Queue"
  ; "Timer"; "fork"; "acquire"; "release" ].

(** The modules a notebook imports. *)
Definition imports (nb : notebook) : list string :=
  flat_map (fun l => match statement l with Import_ m => [m] | _ => [] end)
           (code_lines nb).

(** The callees of the call statements of a notebook. *)
Definition callees (nb : notebook) : list string :=
  flat_map (fun l => match statement l with Call f => [f] | _ => [] end)
           (code_lines nb).

(** *** Statement kinds *)

(** A line of the kinds the tutorials are said to consist of: an
    import, an assignment or a call (empty lines and comments aside). *)
Definition import_assign_or_call (l : string) : bool :=
  match statement l with
  | Empty | Comment | Import_ _ | Assign _ | Call _ => true
  | Magic _ | Other => false
  end.

(** The same, with the [%matplotlib] line magic allowed. *)
Definition simple_line (l : string) : bool :=
  match statement l with
  | Magic m => m =? "matplotlib"
  | Other => false
  | _ => true
  end.

(** A line has no control flow: it is a simple line and none of its
    words is a control-flow keyword. *)
Definition no_control_flow (l : string) : bool :=
  simple_line l
  && (negb (is_statement l) || disjoint (idents l) control_flow_keywords).

(** The words of every line of every code cell, comments included. *)
Definition all_cell_words : list string := flat_map idents all_code_lines.

(** *** Prose *)

(** The caveat of the first tutorial on the initial spin densities. *)
Definition symmetry_caveat : string :=
  "an initial spin-density distribution that breaks the symmetry between the up- and down- spin channels. Otherwise the code *will not be able to find a solution*.".

(** The caveat of the third tutorial on equilibrium. *)
Definition equilibrium_caveat : string :=
  "We will focus on the equilibrium situation, therefore the temperature and chemical potentials of the electrodes *must coincide*.".

(** The first tutorial on how the Hamiltonian is solved. *)
Definition iteration_sentence : string :=
  "iterate the mean field Hubbard Hamiltonian until it finds the self-consistent solution (convergence)".

(** A markdown cell of the notebook contains the phrase. *)
Definition mentions (phrase : string) (nb : notebook) : bool :=
  existsb (fun c => contains phrase (prose c)) (markdown_cells nb).

End Notebook.

(* ================================================================== *)
(** ** The examples page and its equation *)

Module Docs.
Import Text.

Definition tab : string := String (ascii_of_nat 9) EmptyString.

(** The lines of the examples page [docs/examples.rst]. *)
Definition examples_rst : list string :=
  [ ""
  ; "Examples"
  ; "========"
  ; ""
  ; "These examples will show how to use the `hubbard` package to solve the mean-field Hubbard (MFH) equation to simulate electron interactions in graphene nanostructures:"
  ; ""
  ; ".. math::"
  ; tab ++ "H_{MFH} = H_0 + U\sum_{i} \left(\left\langle n_{i\downarrow}\right\rangle n_{i\uparrow}+\left\langle n_{i\uparrow}\right\rangle n_{i\downarrow}\right)- U\sum_i \left\langle n_{i\uparrow}\right\rangle\left\langle n_{i\downarrow}\right\rangle"
  ; ""
  ; "Where :math:`H_0` is the pure tight-binding (TB) Hamiltonian of the structure, :math:`U` is the Coulomb repulsion between electrons occupying the same site and :math:`\langle n_{i\sigma}\rangle` is the :math:`\sigma=\uparrow,\downarrow`-spin density on site :math:`i`."
  ; ""
  ; "One can also go through the `examples <https://github.com/dipc-cc/hubbard/tree/master/examples>`_ section in the main repository to explore more systems suitable to solve with the hubbard package."
  ; ""
  ; ".. toctree::"
  ; "   :maxdepth: 1"
  ; ""
  ; "   examples/molecules.ipynb"
  ; "   examples/periodic.ipynb"
  ; "   examples/open.ipynb"
  ].

(** The opening sentence of the documentation index, which follows the
    examples page in the same source file. *)
Definition index_intro : list string :=
  [ "The hubbard_ Python package allows to find the self-consistent solution for the mean-field Hubbard Model"
  ; "for a certain tight-binding Hamiltonian and a certain Coulomb repulsion parameter U."
  ].

(** The body of the [.. math::] directive: the lines after it, up to
    the first blank line below its content. *)
Fixpoint math_body (started : bool) (ls : list string) : list string :=
  match ls with
  | [] => []
  | l :: r =>
      if started then
        (if is_blank l then [] else l :: math_body true r)
      else math_body (l =? ".. math::") r
  end.

Definition equation_text : string :=
  String.concat " " (math_body false examples_rst).

(** *** Tokens of the equation *)

Inductive token :=
| TName (s : string)     (* a run of letters and digits: H, MFH, U, n, i, 0 *)
| TCommand (s : string)  (* a control word: \sum, \left, \langle, ... *)
| TSymbol (c : ascii).   (* any other visible character *)

Definition is_alnum (c : ascii) : bool := is_alpha c || is_digit c.

Definition close_run (cmd : bool) (cur : string) : list token :=
  match cur with
  | EmptyString => if cmd then [TCommand EmptyString] else []
  | _ => [if cmd then TCommand cur else TName cur]
  end.

(** [lex s cmd cur]: [cur] is the run being read, a control word when
    [cmd] is set. *)
Fixpoint lex (s : string) (cmd : bool) (cur : string) : list token :=
  match s with
  | EmptyString => close_run cmd cur
  | String c r =>
      if (if cmd then is_alpha c else is_alnum c) then
        lex r cmd (cur ++ String c EmptyString)
      else
        (close_run cmd cur ++
           (if (c =? "\")%char then lex r true EmptyString
            else if is_space c then lex r false EmptyString
            else TSymbol c :: lex r false EmptyString))%list
  end.

Definition tokens (s : string) : list token := lex s false EmptyString.

(** *** Expressions *)

Inductive spin := up | down.

(** The terms of the equation.  [N s] is the number operator
    [n_{i s}] and [Mean s] its expectation value [<n_{i s}>] at the
    site [i] bound by the enclosing [Sum]. *)
Inductive expr :=
| H0
| U
| N (s : spin)
| Mean (s : spin)
| Mul (a b : expr)
| Add (a b : expr)
| Sub (a b : expr)
| Sum (body : expr).

Definition spin_of (t : token) : option spin :=
  match t with
  | TCommand "uparrow" => Some up
  | TCommand "downarrow" => Some down
  | _ => None
  end.

(** [n_{i s}] at the head of a token list. *)
Definition number_operator (ts : list token) : option (spin * list token) :=
  match ts with
  | TName "n" :: TSymbol "_" :: TSymbol "{" :: TName "i" :: a :: TSymbol "}" :: r =>
      match spin_of a with Some s => Some (s, r) | None => None end
  | _ => None
  end.

(** The index of a sum: [_i] or [_{i}]. *)
Definition sum_index (ts : list token) : option (list token) :=
  match ts with
  | TSymbol "_" :: TName "i" :: r => Some r
  | TSymbol "_" :: TSymbol "{" :: TName "i" :: TSymbol "}" :: r => Some r
  | _ => None
  end.

(** A token that ends a product: an additive sign or a closing
    delimiter. *)
Definition ends_product (ts : list token) : bool :=
  match ts with
  | [] => true
  | TSymbol "+" :: _ | TSymbol "-" :: _ => true
  | TCommand "right" :: _ => true
  | _ => false
  end.

(** Recursive descent, bounded by [fuel]:
    - [sum] reads [product (('+' | '-') product)*], left associated;
    - [product] reads [factor factor*], a sum sign taking the whole
      product to its right as its body;
    - a factor is [U], [H_0], [n_{i s}], [\left\langle n_{i s}
      \right\rangle], [\left( sum \right)] or [\sum_i product]. *)
Fixpoint sum (fuel : nat) (ts : list token) : option (expr * list token) :=
  match fuel with
  | O => None
  | S f =>
      match product f ts with
      | Some (a, r) => more f a r
      | None => None
      end
  end
with more (fuel : nat) (acc : expr) (ts : list token)
  : option (expr * list token) :=
  match fuel with
  | O => None
  | S f =>
      match ts with
      | TSymbol "+" :: r =>
          match product f r with
          | Some (b, r') => more f (Add acc b) r'
          | None => None
          end
      | TSymbol "-" :: r =>
          match product f r with
          | Some (b, r') => more f (Sub acc b) r'
          | None => None
          end
      | _ => Some (acc, ts)
      end
  end
with product (fuel : nat) (ts : list token) : option (expr * list token) :=
  match fuel with
  | O => None
  | S f =>
      let continue (a : expr) (r : list token) :=
        if ends_product r then Some (a, r)
        else match product f r with
             | Some (b, r') => Some (Mul a b, r')
             | None => None
             end in
      match ts with
      | TName "U" :: r => continue U r
      | TName "H" :: TSymbol "_" :: TName "0" :: r => continue H0 r
      | TName "n" :: _ =>
          match number_operator ts with
          | Some (s, r) => continue (N s) r
          | None => None
          end
      | TCommand "left" :: TCommand "langle" :: r =>
          match number_operator r with
          | Some (s, TCommand "right" :: TCommand "rangle" :: r') =>
              continue (Mean s) r'
          | _ => None
          end
      | TCommand "left" :: TSymbol "(" :: r =>
          match sum f r with
          | Some (a, TCommand "right" :: TSymbol ")" :: r') => continue a r'
          | _ => None
          end
      | TCommand "sum" :: r =>
          match sum_index r with
          | Some r' =>
              match product f r' with
              | Some (b, r'') => Some (Sum b, r'')
              | None => None
              end
          | None => None
          end
      | _ => None
      end
  end.

(** An equation [H_{MFH} = sum] with nothing left over; the tokens
    bound the depth of the descent. *)
Definition equation (ts : list token) : option expr :=
  match ts with
  | TName "H" :: TSymbol "_" :: TSymbol "{" :: TName "MFH" :: TSymbol "}"
      :: TSymbol "=" :: r =>
      match sum (S (List.length r)) r with
      | Some (e, []) => Some e
      | _ => None
      end
  | _ => None
  end.

(** *** Meaning *)

(** An assignment of numbers to the symbols, as for one matrix element:
    the tight-binding element, the repulsion, and per site and spin the
    number-operator element and the spin density. *)
Record model := mkModel
  { sites : list nat
  ; h0 : Z
  ; u : Z
  ; n : spin -> nat -> Z
  ; mean : spin -> nat -> Z
  }.

Definition total (l : list Z) : Z := fold_right Z.add 0%Z l.

Fixpoint eval (m : model) (i : nat) (e : expr) : Z :=
  match e with
  | H0 => h0 m
  | U => u m
  | N s => n m s i
  | Mean s => mean m s i
  | Mul a b => (eval m i a * eval m i b)%Z
  | Add a b => (eval m i a + eval m i b)%Z
  | Sub a b => (eval m i a - eval m i b)%Z
  | Sum b => total (map (fun j => eval m j b) (sites m))
  end.

(** The mean-field Hubbard Hamiltonian as described in words: the
    tight-binding Hamiltonian, plus [U] times the sum over sites of
    [<n_down> n_up + <n_up> n_down], minus [U] times the sum over
    sites of [<n_up> <n_down>]. *)
Definition H_MFH : expr :=
  Sub (Add H0
           (Mul U (Sum (Add (Mul (Mean down) (N up))
                            (Mul (Mean up) (N down))))))
      (Mul U (Sum (Mul (Mean up) (Mean down)))).

End Docs.

(* ================================================================== *)
(** ** The Python of the code cells: tokens, names, ranges *)

Module Python.
Import Text Notebook.

(** *** Tokens *)

Inductive token :=
| Name (s : string)      (* identifier or keyword *)
| Number (s : string)    (* numeric literal, as written *)
| Str (s : string)       (* string literal, its content *)
| FStr (s : string)      (* f-string literal, its content *)
| Op (s : string).       (* punctuation; [==] is one token *)

(** What the lexer is in the middle of. *)
Inductive mode :=
| Start
| InName (cur : string)
| InNumber (cur : string)
| InStr (quote : ascii) (formatted : bool) (cur : string)
| AfterEq.

Definition is_quote (c : ascii) : bool :=
  ((c =? "'") || (c =? "034"))%char.

Definition snoc (s : string) (c : ascii) : string := s ++ String c EmptyString.

(** A character met between tokens. *)
Definition start (c : ascii) : list token * mode :=
  if is_space c then ([], Start)
  else if is_quote c then ([], InStr c false EmptyString)
  else if is_digit c then ([], InNumber (String c EmptyString))
  else if is_ident c then ([], InName (String c EmptyString))
  else if (c =? "=")%char then ([], AfterEq)
  else ([Op (String c EmptyString)], Start).

(** The exponent sign of a float: [1e-10]. *)
Definition exponent_sign (cur : string) (c : ascii) : bool :=
  (((c =? "-") || (c =? "+"))%char)
  && match last_char cur with
     | Some "e"%char | Some "E"%char => true
     | _ => false
     end.

Definition step (m : mode) (c : ascii) : list token * mode :=
  match m with
  | Start => start c
  | InName cur =>
      if is_ident c then ([], InName (snoc cur c))
      else if is_quote c && ((cur =? "f") || (cur =? "F")) then
        ([], InStr c true EmptyString)
      else let (ts, m') := start c in (Name cur :: ts, m')
  | InNumber cur =>
      if is_ident c || (c =? ".")%char || exponent_sign cur c then
        ([], InNumber (snoc cur c))
      else let (ts, m') := start c in (Number cur :: ts, m')
  | InStr q f cur =>
      if (c =? q)%char then ([if f then FStr cur else Str cur], Start)
      else ([], InStr q f (snoc cur c))
  | AfterEq =>
      if (c =? "=")%char then ([Op "=="], Start)
      else let (ts, m') := start c in (Op "=" :: ts, m')
  end.

(** What is left when the line ends. *)
Definition finish (m : mode) : list token :=
  match m with
  | Start => []
  | InName cur => [Name cur]
  | InNumber cur => [Number cur]
  | InStr _ f cur => [if f then FStr cur else Str cur]
  | AfterEq => [Op "="]
  end.

Fixpoint lex_from (m : mode) (s : string) : list token :=
  match s with
  | EmptyString => finish m
  | String c r => let (ts, m') := step m c in (ts ++ lex_from m' r)%list
  end.

Definition lex (s : string) : list token := lex_from Start s.

(** *** Names read *)

(** The names an expression without f-strings loads: every identifier
    that is neither an attribute (after a dot) nor the name before a
    single [=] (an assignment target or a keyword argument). *)
Fixpoint loads (after_dot : bool) (ts : list token) : list string :=
  match ts with
  | [] => []
  | Name x :: r =>
      if after_dot then loads false r
      else match r with
           | Op "=" :: _ => loads false r
           | _ => x :: loads false r
           end
  | Op "." :: r => loads true r
  | _ :: r => loads false r
  end.

(** The replacement fields [{...}] of an f-string's content. *)
Fixpoint fields (s : string) (inside : bool) (cur : string) : list string :=
  match s with
  | EmptyString => []
  | String c r =>
      if inside then
        (if (c =? "}")%char then cur :: fields r false EmptyString
         else fields r true (snoc cur c))
      else if (c =? "{")%char then fields r true EmptyString
      else fields r false EmptyString
  end.

(** The names a token list loads, replacement fields included. *)
Definition reads_of_tokens (ts : list token) : list string :=
  (loads false ts
   ++ flat_map (fun t => match t with
                         | FStr s =>
                             flat_map (fun f => loads false (lex f))
                                      (fields s false EmptyString)
                         | _ => []
                         end) ts)%list.

(** The string literals of a line. *)
Definition literals (l : string) : list string :=
  flat_map (fun t => match t with Str s => [s] | _ => [] end) (lex l).

(** *** Statements and the names they bind *)

(** The name an import binds: the alias after [as], else the imported
    name, else the top-level package. *)
Definition import_binding (ws : list string) : list string :=
  match ws with
  | ["import"; m] => [fst (span is_ident m)]
  | ["import"; _; "as"; a] => [a]
  | ["from"; _; "import"; x] => [x]
  | ["from"; _; "import"; _; "as"; a] => [a]
  | _ => []
  end.

Record effect := mkEffect
  { reads : list string
  ; binds : list string
  }.

(** What executing a line reads and binds; [None] for an empty line or a
    comment. *)
Definition effect_of (l : string) : option effect :=
  match statement l with
  | Empty | Comment => None
  | Magic _ => Some (mkEffect [] [])
  | Import_ _ => Some (mkEffect [] (import_binding (split l)))
  | Assign t =>
      Some (mkEffect (reads_of_tokens (lex l))
                     (if contains "." t then [] else [t]))
  | Call _ | Other => Some (mkEffect (reads_of_tokens (lex l)) [])
  end.

Definition reads_of (l : string) : list string :=
  match effect_of l with Some e => reads e | None => [] end.

Definition bound_by (l : string) : list string :=
  match effect_of l with Some e => binds e | None => [] end.

(** The builtin names the tutorials may use without binding them. *)
Definition builtins : list string :=
  [ "True"; "False"; "None"; "print"; "range"; "len"; "help"; "abs"
  ; "min"; "max"; "sum"; "int"; "float"; "str"; "list"; "dict"
  ; "tuple"; "zip"; "enumerate"; "open" ].

(** *** Running for names *)

(** Running the lines in order, only as far as names go: a line that
    reads a name not yet bound stops the run. *)
Inductive outcome :=
| Finished (env : list string)
| NameError (line : string) (name : string).

Fixpoint run (env : list string) (ls : list string) : outcome :=
  match ls with
  | [] => Finished env
  | l :: r =>
      match find (fun x => negb (mem x env)) (reads_of l) with
      | Some x => NameError l x
      | None => run (bound_by l ++ env)%list r
      end
  end.

(** Every name read before it is bound, each once, in order of first
    use: the run carried on past each error. *)
Fixpoint unbound (env : list string) (ls : list string) : list string :=
  match ls with
  | [] => []
  | l :: r =>
      let missing := nodup string_dec
                       (filter (fun x => negb (mem x env)) (reads_of l)) in
      (missing ++ unbound (bound_by l ++ missing ++ env) r)%list
  end.

(** *** Ranges and indices *)

(** Python's [range(a, b)]. *)
Definition py_range (a b : Z) : list Z :=
  map (fun k => (a + Z.of_nat k)%Z) (seq 0 (Z.to_nat (b - a))).

(** Python's rule for an index into a sequence of [len] items: a
    negative index counts from the end. *)
Definition normalize (len i : Z) : Z :=
  if (i <? 0)%Z then (i + len)%Z else i.

(** [elec_indx = [range(len(H_elec)), range(-len(H_elec), 0)]] of the
    third tutorial, for an electrode of [n] atoms. *)
Definition elec_indx (n : Z) : list (list Z) :=
  [py_range 0 n; py_range (- n) 0].

(** The integer literals of a line. *)
Definition integers (l : string) : list Z :=
  flat_map (fun t => match t with
                     | Number s =>
                         match Fdf.decimal s with
                         | Some (m, O) => [m]
                         | _ => []
                         end
                     | _ => []
                     end) (lex l).

(** The line of a notebook's code cells that holds [what]. *)
Definition line_with (what : string) (nb : notebook) : string :=
  match find (contains what) (statements nb) with
  | Some l => l
  | None => EmptyString
  end.

(** The atoms the third tutorial removes from the tiled ribbon, and the
    number of tiles. *)
Definition removed_atoms : list Z := integers (line_with ".remove(" MFH_3).
Definition tiles : Z := hd 0%Z (integers (line_with ".tile(" MFH_3)).

Definition memZ (x : Z) (l : list Z) : bool := existsb (Z.eqb x) l.

(** The indices of a ribbon of [total] atoms that are not removed. *)
Definition kept (total : Z) : list Z :=
  filter (fun i => negb (memZ i removed_atoms)) (py_range 0 total).

End Python.

(* ================================================================== *)
(** ** The third tutorial against the input file *)

Module Transport.
Import Text Notebook Python.

(** The lines of the fenced code blocks of a markdown cell. *)
Fixpoint fenced (inside : bool) (ls : list string) : list string :=
  match ls with
  | [] => []
  | l :: r =>
      if prefix "```" l then fenced (negb inside) r
      else if inside then l :: fenced inside r
      else fenced inside r
  end.

(** The code a notebook shows: its code cells, then the fenced blocks of
    its markdown cells. *)
Definition shown_code (nb : notebook) : list string :=
  (statements nb
   ++ flat_map (fun c => fenced false (source c)) (markdown_cells nb))%list.

(** The files the shown code writes: the string literals of the calls of
    a [write] method. *)
Definition written_files (nb : notebook) : list string :=
  flat_map literals (filter (contains ".write(") (shown_code nb)).

(** For each [write] call of the shown code, the variable it starts from
    and the string literals it is given. *)
Definition written_from (nb : notebook) : list (string * list string) :=
  map (fun l => (fst (span is_ident l), literals l))
      (filter (contains ".write(") (shown_code nb)).

(** The Hamiltonian files the input file refers to: [TBT.HS] and the
    [TSHS] of each electrode block. *)
Definition referenced_files (its : list Fdf.item) : list string :=
  (match Fdf.find_keyword "TBT.HS" its with Some vs => vs | None => [] end
   ++ flat_map (fun b => if prefix "TS.Elec." (Fdf.opened b) then
                           match Fdf.lookup "TSHS" b with
                           | Some vs => vs
                           | None => []
                           end
                         else [])
               (Fdf.blocks its))%list.

(** The pairs [(name, 'literal')] of a token list. *)
Fixpoint pairs (ts : list token) : list (string * string) :=
  match ts with
  | [] => []
  | t :: r =>
      match t, r with
      | Op "(", Name x :: Op "," :: Str d :: Op ")" :: _ => (x, d) :: pairs r
      | _, _ => pairs r
      end
  end.

(** The electrodes handed to [NEGF]: Hamiltonian variable and
    semi-infinite direction. *)
Definition negf_electrodes (nb : notebook) : list (string * string) :=
  pairs (lex (line_with "NEGF(" nb)).

(** The device handed to [NEGF]: its first argument. *)
Definition negf_device (nb : notebook) : option string :=
  match lex (snd (span (fun c => negb (c =? "(")%char) (line_with "NEGF(" nb))) with
  | Op "(" :: Name d :: _ => Some d
  | _ => None
  end.

(** The electrodes of the input file, in the order of [TS.Elecs]. *)
Definition fdf_electrodes (its : list Fdf.item) : list Fdf.electrode :=
  flat_map (fun n => match Fdf.electrode_named its n with
                     | Some e => [e]
                     | None => []
                     end)
           (Fdf.electrode_names its).

(** sisl writes the lattice vectors A, B, C; the input file a1, a2, a3. *)
Definition lattice_vector (axis : string) : string :=
  if axis =? "A" then "a1"
  else if axis =? "B" then "a2"
  else if axis =? "C" then "a3"
  else EmptyString.

(** The input-file direction for a sisl direction such as [-A]. *)
Definition fdf_direction (d : string) : string :=
  match d with
  | String s axis => String s (lattice_vector axis)
  | EmptyString => EmptyString
  end.

(** An electrode of the [NEGF] call and one of the input file agree: the
    file is the variable's name with [.nc], the direction is the same. *)
Definition same_electrode (p : string * string) (e : Fdf.electrode) : bool :=
  (Fdf.hamiltonian e =? fst p ++ ".nc")
  && (Fdf.semi_inf_dir e =? fdf_direction (snd p)).

End Transport.

(* ================================================================== *)
(** ** Models of the documented Hamiltonian *)

Module Hubbard.
Import Docs.

Definition other (s : spin) : spin :=
  match s with up => down | down => up end.

(** The model with the two spin channels exchanged. *)
Definition flip (m : model) : model :=
  mkModel (sites m) (h0 m) (u m)
          (fun s => n m (other s)) (fun s => mean m (other s)).

(** The number operators take their mean values. *)
Definition at_mean (m : model) : Prop :=
  forall s j, n m s j = mean m s j.

End Hubbard.

(* ================================================================== *)
(** ** Where the calls of the code cells go *)

Module Api.
Import Text Notebook Python.

(** The external packages the tutorials are written against. *)
Definition api_packages : list string := ["sisl"; "hubbard"].

(** The first name of a dotted path: the package of a module, the
    receiver of a method call. *)
Definition root (path : string) : string := fst (span is_ident path).

(** The name the right-hand side of an assignment starts from, if it
    starts from a name. *)
Definition rhs_root (l : string) : option string :=
  match lex l with
  | Name _ :: Op "=" :: Name r :: _ => Some r
  | _ => None
  end.

Definition forget (x : string) (known : list string) : list string :=
  List.remove string_dec x known.

(** The names that stand for something of the sisl/hubbard API after a
    line, given those before it: a name an import of one of the packages
    binds, and the target of an assignment whose right-hand side starts
    from such a name.  A name bound otherwise stops being one. *)
Definition api_after (known : list string) (l : string) : list string :=
  match statement l with
  | Import_ m =>
      if mem (root m) api_packages then
        (import_binding (split l) ++ known)%list
      else fold_right forget known (import_binding (split l))
  | Assign t =>
      match rhs_root l with
      | Some r => if mem r known then t :: known else forget t known
      | None => forget t known
      end
  | _ => known
  end.

(** Where a call statement goes. *)
Inductive target :=
| Api_call           (* a function or method of the sisl/hubbard API *)
| Builtin_print      (* Python's print *)
| Unbound_receiver   (* the receiver is a name nothing has bound *)
| Other_call.

Definition target_of (known bound : list string) (callee : string) : target :=
  if mem (root callee) known then Api_call
  else if callee =? "print" then Builtin_print
  else if negb (mem (root callee) bound) then Unbound_receiver
  else Other_call.

(** What a line of a code cell is, seen where it stands. *)
Inductive verdict :=
| Skipped                 (* empty line or comment *)
| Is_import
| Is_assignment
| Is_call (t : target)
| Is_magic (name : string)
| Is_other.

Definition verdict_of (known bound : list string) (l : string) : verdict :=
  match statement l with
  | Empty | Comment => Skipped
  | Import_ _ => Is_import
  | Assign _ => Is_assignment
  | Call f => Is_call (target_of known bound f)
  | Magic m => Is_magic m
  | Other => Is_other
  end.

(** The verdict on each line, the lines taken in order: [known] are the
    API names and [bound] all the names bound so far. *)
Fixpoint verdicts (known bound : list string) (ls : list string)
  : list (string * verdict) :=
  match ls with
  | [] => []
  | l :: r =>
      (l, verdict_of known bound l)
        :: verdicts (api_after known l) (bound_by l ++ bound)%list r
  end.

Definition verdicts_of (nb : notebook) : list (string * verdict) :=
  verdicts [] builtins (code_lines nb).

(** The call statements of a notebook with where they go. *)
Definition calls (nb : notebook) : list (string * target) :=
  flat_map (fun lv => match snd lv with
                      | Is_call t => [(fst lv, t)]
                      | _ => []
                      end)
           (verdicts_of nb).

(** A line as the tutorials are described: an import, an assignment or a
    call into the sisl/hubbard API (empty lines and comments aside). *)
Definition as_described (v : verdict) : bool :=
  match v with
  | Skipped | Is_import | Is_assignment | Is_call Api_call => true
  | _ => false
  end.

(** The tutorials as described: three notebooks whose code cells hold
    imports, assignments and calls into the sisl/hubbard API only. *)
Definition tutorials_as_described : Prop :=
  List.length notebooks = 3
  /\ forall nb, In nb (map snd notebooks) ->
     forall lv, In lv (verdicts_of nb) -> as_described (snd lv) = true.

(** The same description with some further verdicts let through. *)
Definition described_but_for (allow : verdict -> bool) : Prop :=
  List.length notebooks = 3
  /\ forall nb, In nb (map snd notebooks) ->
     forall lv, In lv (verdicts_of nb) ->
                as_described (snd lv) || allow (snd lv) = true.

Definition is_magic (v : verdict) : bool :=
  match v with Is_magic _ => true | _ => false end.

Definition is_print (v : verdict) : bool :=
  match v with Is_call Builtin_print => true | _ => false end.

(** The one line magic of the tutorials. *)
Definition matplotlib_inline : string := "%matplotlib inline".

(** The line magic closes the first code cell of the notebook and is
    the only line of the code cells that is no import, assignment or
    call. *)
Definition magic_closes_first_cell (nb : notebook) : bool :=
  match code_cells nb with
  | [] => false
  | first :: rest =>
      (List.last (source first) EmptyString =? matplotlib_inline)
      && forallb import_assign_or_call (removelast (source first))
      && forallb import_assign_or_call (flat_map source rest)
  end.

(** A call that is accounted for: into the API, or of [print]. *)
Definition api_or_print (t : target) : bool :=
  match t with
  | Api_call | Builtin_print => true
  | _ => false
  end.

(** The receiver of the call on the line is bound where the call
    stands. *)
Definition receiver_bound (t : target) : bool :=
  match t with
  | Unbound_receiver => false
  | _ => true
  end.

End Api.

(* ================================================================== *)
(** ** General facts about the scanners *)

Module Scanner.
Import Text Fdf.

Lemma mem_In (x : string) (l : list string) : mem x l = true <-> In x l.
Proof.
  unfold mem. rewrite existsb_exists. split.
  - intros [y [Hy Heq]]. apply String.eqb_eq in Heq. now subst.
  - intros H. exists x. split; [assumption | apply String.eqb_refl].
Qed.

Lemma disjoint_spec (l1 l2 : list string) :
  disjoint l1 l2 = true <-> Forall (fun x => ~ In x l2) l1.
Proof.
  unfold disjoint. rewrite forallb_forall, Forall_forall.
  split; intros H x Hx.
  - intros Hin. apply mem_In in Hin. specialize (H x Hx).
    rewrite Hin in H. discriminate.
  - destruct (mem x l2) eqn:E; [| reflexivity].
    apply mem_In in E. exfalso. exact (H x Hx E).
Qed.

Lemma forallb_Forall {A} (f : A -> bool) (l : list A) :
  forallb f l = true <-> Forall (fun x => f x = true) l.
Proof. now rewrite forallb_forall, Forall_forall. Qed.

(** Reading a file tracks the open/closed state that [alternates]
    checks: whenever the reader accepts the lines, the directives
    alternate from the state it started in to the state it ended in. *)
Lemma read_alternates (ls : list string) :
  forall st st', read st ls = Some st' ->
                 alternates (inside st) ls = negb (inside st').
Proof.
  induction ls as [| l r IH]; intros st st' H; simpl in H.
  - injection H as <-. reflexivity.
  - destruct (step st l) as [st1 |] eqn:Hstep; [| discriminate].
    specialize (IH _ _ H). simpl. unfold step in Hstep.
    unfold inside in *.
    destruct (classify l), (current st) as [[o es] |] eqn:Ec;
      try discriminate;
      injection Hstep as <-; simpl in *;
      try rewrite Ec in IH; exact IH.
Qed.

(** A file that reads has every [%block] closed by an [%endblock]
    before the next one opens. *)
Lemma parse_alternates (ls : list string) (its : list item) :
  parse ls = Some its -> alternates false ls = true.
Proof.
  unfold parse. intros H.
  destruct (read (mkReader [] None) ls) as [st |] eqn:Hr; [| discriminate].
  apply read_alternates in Hr. change (alternates false ls) with
    (alternates (inside (mkReader [] None)) ls). rewrite Hr.
  unfold inside. destruct (current st); [discriminate | reflexivity].
Qed.

(** A matching closing label is a closing label. *)
Lemma label_matches_labelled (b : block) :
  label_matches b = true -> labelled b = true.
Proof.
  unfold label_matches, labelled. now destruct (closed b).
Qed.

(** The file reads, and [RUN] is what it reads as. *)
Lemma RUN_parsed : parse RUN_fdf = Some RUN.
Proof. reflexivity. Qed.

End Scanner.

(* ================================================================== *)
(** ** The TBtrans input file: what it specifies *)

Module RunFile.
Import Text Fdf Scanner.

(** Closes a [Forall] over a computed list whose elements each need an
    existential witness found by evaluation. *)
Ltac each :=
  repeat first
    [ apply Forall_nil
    | apply Forall_cons
    | eexists
    | split
    | reflexivity
    | (left; reflexivity)
    | (right; left; reflexivity)
    | (right; reflexivity) ].

Lemma electrodes_listed : electrode_names RUN = ["HGNRA"; "HGNRB"].
Proof. reflexivity. Qed.

Lemma chempots_listed : chempot_names RUN = ["POT"].
Proof. reflexivity. Qed.

Lemma electrode_HGNRA :
  electrode_named RUN "HGNRA"
  = Some (mkElectrode "MFH_elec.nc" "POT" "-a1" ("begin", "1")).
Proof. reflexivity. Qed.

Lemma electrode_HGNRB :
  electrode_named RUN "HGNRB"
  = Some (mkElectrode "MFH_elec.nc" "POT" "+a1" ("end", "-1")).
Proof. reflexivity. Qed.

(** C1.  The input file specifies exactly the listed things: read item
    by item it consists of the system label, the [TBT.HS] reference, the
    contour blocks, the electrode blocks, the voltage and the
    chemical-potential blocks, in that order and nothing else; each of
    the six is present; the window gives a start energy, an end energy,
    a step and a quadrature rule. *)
Theorem C1_input_file_contents :
  parse RUN_fdf = Some RUN
  /\ map describes RUN
     = map Some [ System_label; HS_reference; Contour_window; Contour_window
                ; Electrodes; Electrodes; Electrodes; Voltage
                ; ChemPot_bias; ChemPot_bias ]
  /\ Forall (fun c => exists it, In it RUN /\ describes it = Some c) all_content
  /\ find_keyword "SystemLabel" RUN = Some ["device"]
  /\ find_keyword "TBT.HS" RUN = Some ["MFH_HC.nc"]
  /\ contour_names RUN = ["window"]
  /\ option_map window_of (find_block "TBT.Contour.window" RUN)
     = Some (Some (mkWindow ("-10.0", "eV") ("10.0", "eV") ("0.01", "eV") "mid-rule"))
  /\ map opened (filter (fun b => is_electrode_label (opened b)) (blocks RUN))
     = ["TS.Elecs"; "TS.Elec.HGNRA"; "TS.Elec.HGNRB"]
  /\ find_keyword "TBT.Voltage" RUN = Some ["0.00000"; "eV"]
  /\ map opened (filter (fun b => is_chempot_label (opened b)) (blocks RUN))
     = ["TBT.ChemPots"; "TBT.ChemPot.POT"].
Proof.
  split; [exact RUN_parsed |].
  split; [reflexivity |].
  split.
  - unfold all_content.
    repeat (apply Forall_cons || apply Forall_nil).
    + exists (Keyword "SystemLabel" ["device"]). split; [simpl; tauto | reflexivity].
    + exists (Keyword "TBT.HS" ["MFH_HC.nc"]). split; [simpl; tauto | reflexivity].
    + exists (Section_ (mkBlock "TBT.Contours" None [("window", [])])).
      split; [simpl; tauto | reflexivity].
    + exists (Section_ (mkBlock "TS.Elecs" (Some "TS.Elecs")
                                [("HGNRA", []); ("HGNRB", [])])).
      split; [simpl; tauto | reflexivity].
    + exists (Keyword "TBT.Voltage" ["0.00000"; "eV"]).
      split; [simpl; tauto | reflexivity].
    + exists (Section_ (mkBlock "TBT.ChemPots" (Some "TS.ChemPots") [("POT", [])])).
      split; [simpl; tauto | reflexivity].
  - repeat split; reflexivity.
Qed.

(** C2.  The labels of the blocks the file opens are exactly
    [TBT.Contours], [TBT.Contour.window], [TS.Elecs], [TS.Elec.<name>]
    for each electrode name, [TBT.ChemPots] and [TBT.ChemPot.<name>] for
    each chemical-potential name, each once; every line outside the
    blocks is blank or a keyword followed by a value. *)
Theorem C2_block_sections :
  parse RUN_fdf = Some RUN
  /\ map opened (blocks RUN) = expected_blocks RUN
  /\ (forall lab, In lab (map opened (blocks RUN)) <-> In lab (expected_blocks RUN))
  /\ NoDup (map opened (blocks RUN))
  /\ electrode_names RUN = ["HGNRA"; "HGNRB"]
  /\ chempot_names RUN = ["POT"]
  /\ Forall (fun l => is_blank l = true \/ is_keyword_value l = true)
            (outside false RUN_fdf).
Proof.
  assert (E : map opened (blocks RUN) = expected_blocks RUN) by reflexivity.
  split; [exact RUN_parsed |].
  split; [exact E |].
  split; [intros lab; rewrite E; tauto |].
  split.
  - rewrite E. vm_compute.
    repeat (apply NoDup_cons; [simpl; intuition discriminate |]).
    apply NoDup_nil.
  - split; [exact electrodes_listed |].
    split; [exact chempots_listed |].
    vm_compute. each.
Qed.

(** C3.  Every electrode named in [TS.Elecs] has a [TS.Elec.<name>]
    block with a Hamiltonian file ([TSHS]), a chemical-potential name
    ([chem-pot]), a semi-infinite direction ([semi-inf-dir]) and an atom
    position ([elec-pos]); HGNRA and HGNRB each carry their own [TSHS]
    entry. *)
Theorem C3_electrode_blocks :
  electrode_names RUN = ["HGNRA"; "HGNRB"]
  /\ Forall (fun n =>
               exists b h c d p,
                 electrode_block RUN n = Some b
                 /\ opened b = "TS.Elec." ++ n
                 /\ lookup "TSHS" b = Some [h]
                 /\ lookup "chem-pot" b = Some [c]
                 /\ lookup "semi-inf-dir" b = Some [d]
                 /\ lookup "elec-pos" b = Some [fst p; snd p]
                 /\ electrode_of b = Some (mkElectrode h c d p))
            (electrode_names RUN)
  /\ option_map hamiltonian (electrode_named RUN "HGNRA") = Some "MFH_elec.nc"
  /\ option_map hamiltonian (electrode_named RUN "HGNRB") = Some "MFH_elec.nc".
Proof.
  split; [exact electrodes_listed |].
  split.
  - rewrite electrodes_listed.
    apply Forall_cons; [| apply Forall_cons; [| apply Forall_nil]].
    + eexists; exists "MFH_elec.nc", "POT", "-a1", ("begin", "1").
      repeat split; reflexivity.
    + eexists; exists "MFH_elec.nc", "POT", "+a1", ("end", "-1").
      repeat split; reflexivity.
  - now rewrite electrode_HGNRA, electrode_HGNRB.
Qed.

(** C8.  Every [%block] is closed by an [%endblock] before the next
    [%block]; among the closing labels that are written, the ones equal
    to the opening label are those of the electrode blocks and no
    others: [TBT.ChemPots] is closed as [TS.ChemPots] and
    [TBT.ChemPot.POT] as [TS.ChemPot.POT]. *)
Theorem C8_closing_labels :
  alternates false RUN_fdf = true
  /\ map (fun b => (opened b, closed b)) (blocks RUN)
     = [ ("TBT.Contours", None)
       ; ("TBT.Contour.window", None)
       ; ("TS.Elecs", Some "TS.Elecs")
       ; ("TS.Elec.HGNRA", Some "TS.Elec.HGNRA")
       ; ("TS.Elec.HGNRB", Some "TS.Elec.HGNRB")
       ; ("TBT.ChemPots", Some "TS.ChemPots")
       ; ("TBT.ChemPot.POT", Some "TS.ChemPot.POT") ]
  /\ Forall (fun b => label_matches b = is_electrode_label (opened b))
            (filter labelled (blocks RUN))
  /\ map opened (filter label_matches (blocks RUN))
     = ["TS.Elecs"; "TS.Elec.HGNRA"; "TS.Elec.HGNRB"]
  /\ map opened (filter (fun b => labelled b && negb (label_matches b)) (blocks RUN))
     = ["TBT.ChemPots"; "TBT.ChemPot.POT"]
  /\ option_map closed (find_block "TBT.ChemPots" RUN) = Some (Some "TS.ChemPots")
  /\ option_map closed (find_block "TBT.ChemPot.POT" RUN) = Some (Some "TS.ChemPot.POT").
Proof.
  split; [exact (parse_alternates _ _ RUN_parsed) |].
  split; [reflexivity |].
  split.
  - vm_compute. repeat (apply Forall_cons || apply Forall_nil); reflexivity.
  - repeat split; reflexivity.
Qed.

(** C10.  The file is referentially closed: each name in [TS.Elecs] has
    its [TS.Elec.<name>] block, each [chem-pot] value of an electrode
    block is listed in [TBT.ChemPots], and each name listed there has a
    [TBT.ChemPot.<name>] block that gives [mu]. *)
Theorem C10_referentially_closed :
  parse RUN_fdf = Some RUN
  /\ electrode_names RUN = ["HGNRA"; "HGNRB"]
  /\ Forall (fun n => defined (electrode_block RUN n) = true) (electrode_names RUN)
  /\ chempot_references RUN = ["POT"; "POT"]
  /\ Forall (fun c => In c (chempot_names RUN)) (chempot_references RUN)
  /\ chempot_names RUN = ["POT"]
  /\ Forall (fun n => defines_mu (chempot_block RUN n) = true) (chempot_names RUN)
  /\ option_map (lookup "mu") (chempot_block RUN "POT") = Some (Some ["V/2"]).
Proof.
  split; [exact RUN_parsed |].
  split; [exact electrodes_listed |].
  split.
  { apply forallb_Forall. reflexivity. }
  split; [reflexivity |].
  split.
  { apply Forall_forall. intros c Hc. apply mem_In.
    revert c Hc. apply Forall_forall, forallb_Forall. reflexivity. }
  split; [exact chempots_listed |].
  split; [apply forallb_Forall; reflexivity | reflexivity].
Qed.

End RunFile.

(* ================================================================== *)
(** ** The notebooks: what their code cells hold *)

Module Tutorials.
Import Text Notebook Scanner Api.

Lemma three_notebooks : List.length notebooks = 3.
Proof. reflexivity. Qed.

(** The [%matplotlib inline] line of the first cell of the first
    tutorial is a line magic: no import, assignment or call. *)
Lemma MFH_1_line_magic :
  In "%matplotlib inline" (code_lines MFH_1)
  /\ statement "%matplotlib inline" = Magic "matplotlib"
  /\ import_assign_or_call "%matplotlib inline" = false.
Proof.
  split; [apply mem_In; reflexivity | split; reflexivity].
Qed.

(** A line without control flow is one of the simple kinds. *)
Lemma no_control_flow_simple (l : string) :
  no_control_flow l = true -> simple_line l = true.
Proof.
  unfold no_control_flow. intros H.
  apply andb_true_iff in H. exact (proj1 H).
Qed.

(** The [print(geom)] line of the second tutorial calls a builtin: where
    it stands [print] is no name of the sisl/hubbard API. *)
Lemma MFH_2_print :
  In ("print(geom)", Is_call Builtin_print) (verdicts_of MFH_2)
  /\ as_described (Is_call Builtin_print) = false.
Proof.
  split; [| reflexivity].
  vm_compute. tauto.
Qed.

Lemma MFH_1_magic_verdict :
  In (matplotlib_inline, Is_magic "matplotlib") (verdicts_of MFH_1)
  /\ as_described (Is_magic "matplotlib") = false.
Proof.
  split; [| reflexivity].
  vm_compute. tauto.
Qed.

(** The call on [MDH_HC] in the third tutorial has a receiver that
    nothing has bound. *)
Lemma MFH_3_unbound_receiver :
  In ("MDH_HC.set_polarization(lower, dn=upper)", Is_call Unbound_receiver)
     (verdicts_of MFH_3).
Proof. vm_compute. tauto. Qed.

(** C5, as stated, fails, and on two counts.  The first code cell of
    each notebook ends with the IPython line magic [%matplotlib inline],
    which is neither an import, nor an assignment, nor a call: the
    description fails even with [print] let through.  And [print(geom)]
    calls a Python builtin, not the sisl/hubbard API: the description
    fails even with the line magic let through. *)
Lemma C5_magic_and_print_counterexample :
  ~ tutorials_as_described
  /\ ~ described_but_for is_print
  /\ ~ described_but_for is_magic.
Proof.
  assert (H1 : In MFH_1 (map snd notebooks)) by (simpl; tauto).
  assert (H2 : In MFH_2 (map snd notebooks)) by (simpl; tauto).
  destruct MFH_1_magic_verdict as [Hm _].
  destruct MFH_2_print as [Hp _].
  split; [| split].
  - intros [_ H]. specialize (H MFH_1 H1 _ Hm). discriminate.
  - intros [_ H]. specialize (H MFH_1 H1 _ Hm). discriminate.
  - intros [_ H]. specialize (H MFH_2 H2 _ Hp). discriminate.
Qed.

(** C5, amended.  There are three notebooks, and every line of every
    code cell is free of control flow: empty, a comment, an import, an
    assignment, a call statement or the line magic [%matplotlib inline],
    written at the left margin and without control-flow keywords.  The
    line magic is the last line of each notebook's first code cell and
    the only line that is no import, assignment or call.  Every call
    statement whose receiver is bound where it stands is a call into the
    sisl/hubbard API or of the builtin [print]. *)
Theorem C5_straight_line_cells :
  List.length notebooks = 3
  /\ Forall (fun nb => Forall (fun l => no_control_flow l = true) (code_lines nb))
            (map snd notebooks)
  /\ Forall (fun nb => Forall (fun l => simple_line l = true) (code_lines nb))
            (map snd notebooks)
  /\ Forall (fun w => ~ In w control_flow_keywords) all_code_words
  /\ Forall (fun nb => magic_closes_first_cell nb = true) (map snd notebooks)
  /\ Forall (fun nb =>
               Forall (fun c => api_or_print (snd c) = true)
                      (filter (fun c => receiver_bound (snd c)) (calls nb)))
            (map snd notebooks)
  /\ map (fun fn => filter (fun c => receiver_bound (snd c)) (calls (snd fn)))
         notebooks
     = [ [ ("HH.set_polarization([77], dn=[23])", Api_call)
         ; ("print(f" ++ dquote ++ "Total energy = {E_0}" ++ dquote ++ ")",
            Builtin_print)
         ; ("p.annotate()", Api_call)
         ; ("HH.write_initspin('init-spin.fdf', ext_geom=geom)", Api_call) ]
       ; [ ("print(geom)", Builtin_print) ]
       ; [ ("MFH_elec.set_polarization([0], dn=[9])", Api_call)
         ; ("HC.set_nsc([1, 1, 1])", Api_call)
         ; ("HC.geometry.write('device.xyz')", Api_call) ] ].
Proof.
  assert (Hcf : Forall (fun nb => Forall (fun l => no_control_flow l = true)
                                         (code_lines nb))
                       (map snd notebooks)).
  { apply Forall_forall. intros nb Hnb. apply forallb_Forall.
    revert nb Hnb. apply Forall_forall.
    simpl. repeat (apply Forall_cons || apply Forall_nil); vm_compute; reflexivity. }
  split; [exact three_notebooks |].
  split; [exact Hcf |].
  split.
  { apply Forall_forall. intros nb Hnb.
    assert (H := proj1 (Forall_forall _ _) Hcf nb Hnb).
    eapply Forall_impl; [| exact H].
    exact no_control_flow_simple. }
  split; [apply disjoint_spec; vm_compute; reflexivity |].
  split.
  { simpl. repeat (apply Forall_cons || apply Forall_nil); vm_compute; reflexivity. }
  split.
  { apply Forall_forall. intros nb Hnb. apply forallb_Forall.
    revert nb Hnb. apply Forall_forall.
    simpl. repeat (apply Forall_cons || apply Forall_nil); vm_compute; reflexivity. }
  vm_compute. reflexivity.
Qed.

(** C6.  No line of any code cell, comments included, holds [try],
    [except], [finally], [raise] or [assert]; and a markdown cell of the
    first tutorial warns that without an initial spin density that
    breaks the symmetry between the up- and down-spin channels the code
    will not find a solution. *)
Theorem C6_no_error_handling :
  Forall (fun w => ~ In w error_handling_keywords) all_cell_words
  /\ Forall (fun w => ~ In w error_handling_keywords) all_code_words
  /\ (exists c, nth_error MFH_1 6 = Some c
                /\ kind c = markdown
                /\ contains symmetry_caveat (prose c) = true)
  /\ mentions symmetry_caveat MFH_1 = true.
Proof.
  split; [apply disjoint_spec; vm_compute; reflexivity |].
  split; [apply disjoint_spec; vm_compute; reflexivity |].
  split.
  - eexists. split; [reflexivity |]. split; vm_compute; reflexivity.
  - vm_compute; reflexivity.
Qed.

(** C7.  No line of any code cell, comments included, names a
    concurrency, suspension or shared-resource primitive, and the
    modules the notebooks import are sisl, numpy and hubbard with its
    submodules. *)
Theorem C7_no_concurrency :
  Forall (fun w => ~ In w concurrency_names) all_cell_words
  /\ Forall (fun w => ~ In w concurrency_names) all_code_words
  /\ map (fun fn => imports (snd fn)) notebooks
     = [ ["sisl"; "hubbard"; "hubbard.sp2"; "hubbard.density"; "hubbard.plot"]
       ; ["sisl"; "hubbard"; "hubbard.sp2"; "hubbard.density"; "hubbard.plot"]
       ; ["sisl"; "numpy"; "hubbard"; "hubbard.sp2"; "hubbard.density"
         ; "hubbard.negf"; "hubbard.plot"] ].
Proof.
  split; [apply disjoint_spec; vm_compute; reflexivity |].
  split; [apply disjoint_spec; vm_compute; reflexivity |].
  vm_compute; reflexivity.
Qed.

End Tutorials.

(* ================================================================== *)
(** ** The input file against the third tutorial *)

Module Equilibrium.
Import Text Fdf.

(** C9.  The input file describes a two-terminal setup at zero bias:
    the electrodes HGNRA and HGNRB use the same Hamiltonian file
    [MFH_elec.nc] and the same chemical potential [POT], their
    semi-infinite directions [-a1] and [+a1] are opposite, and
    [TBT.Voltage] is [0.00000 eV], that is zero; the third tutorial
    asks for coinciding chemical potentials at equilibrium. *)
Theorem C9_zero_bias_two_terminal :
  electrode_names RUN = ["HGNRA"; "HGNRB"]
  /\ (exists a b,
        electrode_named RUN "HGNRA" = Some a
        /\ electrode_named RUN "HGNRB" = Some b
        /\ hamiltonian a = "MFH_elec.nc" /\ hamiltonian b = hamiltonian a
        /\ chem_pot a = "POT" /\ chem_pot b = chem_pot a
        /\ semi_inf_dir a = "-a1" /\ semi_inf_dir b = "+a1"
        /\ opposite (semi_inf_dir a) (semi_inf_dir b) = true)
  /\ find_keyword "TBT.Voltage" RUN = Some ["0.00000"; "eV"]
  /\ voltage RUN = Some ((0%Z, 5), "eV")
  /\ Notebook.mentions Notebook.equilibrium_caveat Notebook.MFH_3 = true.
Proof.
  split; [reflexivity |].
  split.
  - exists (mkElectrode "MFH_elec.nc" "POT" "-a1" ("begin", "1")),
           (mkElectrode "MFH_elec.nc" "POT" "+a1" ("end", "-1")).
    repeat split; reflexivity.
  - split; [reflexivity |]. split; vm_compute; reflexivity.
Qed.

End Equilibrium.

(* ================================================================== *)
(** ** The documented mean-field Hamiltonian *)

Module MeanField.
Import Text Docs.

(** The equation of the examples page reads as the Hamiltonian
    described in words. *)
Lemma equation_reads : equation (tokens equation_text) = Some H_MFH.
Proof. vm_compute. reflexivity. Qed.

(** What the described Hamiltonian evaluates to. *)
Lemma eval_H_MFH (m : model) (i : nat) :
  eval m i H_MFH
  = (h0 m
     + u m * total (map (fun j => mean m down j * n m up j
                                  + mean m up j * n m down j) (sites m))
     - u m * total (map (fun j => mean m up j * mean m down j) (sites m)))%Z.
Proof. reflexivity. Qed.

(** Without repulsion the model is the tight-binding Hamiltonian. *)
Lemma no_repulsion (m : model) (i : nat) :
  u m = 0%Z -> eval m i H_MFH = h0 m.
Proof. intros Hu. rewrite eval_H_MFH, Hu. lia. Qed.

(** C4.  The equation of the examples page is
    [H_MFH = H_0 + U sum_i (<n_down> n_up + <n_up> n_down)
             - U sum_i <n_up> <n_down>]:
    the tight-binding Hamiltonian [H_0] plus the on-site repulsion
    term; the page names [H_0] and [U] so, and the documentation has the
    model solved self-consistently, by iteration. *)
Theorem C4_documented_hamiltonian :
  equation (tokens equation_text) = Some H_MFH
  /\ (forall m i,
        eval m i H_MFH
        = (h0 m
           + u m * total (map (fun j => mean m down j * n m up j
                                        + mean m up j * n m down j) (sites m))
           - u m * total (map (fun j => mean m up j * mean m down j) (sites m)))%Z)
  /\ existsb (contains "`H_0` is the pure tight-binding (TB) Hamiltonian of the structure")
             examples_rst = true
  /\ existsb (contains "`U` is the Coulomb repulsion between electrons occupying the same site")
             examples_rst = true
  /\ existsb (contains "find the self-consistent solution for the mean-field Hubbard Model")
             index_intro = true
  /\ Notebook.mentions Notebook.iteration_sentence Notebook.MFH_1 = true.
Proof.
  split; [exact equation_reads |].
  split; [exact eval_H_MFH |].
  repeat split; vm_compute; reflexivity.
Qed.

End MeanField.


(* ================================================================== *)
(** ** Names in the notebooks *)

Module Names.
Import Text Notebook Python Scanner.

(** A run that finishes has met no unbound name: whatever a line reads
    is in the starting environment or bound by a line before it. *)
Lemma run_finished (ls : list string) :
  forall env env', run env ls = Finished env' ->
  forall pre l post, ls = (pre ++ l :: post)%list ->
  forall x, In x (reads_of l) ->
            In x env \/ In x (flat_map bound_by pre).
Proof.
  induction ls as [| a r IH]; intros env env' Hrun pre l post Hsplit x Hx.
  - destruct pre; discriminate.
  - simpl in Hrun.
    destruct (find (fun y => negb (mem y env)) (reads_of a)) eqn:Hfind;
      [discriminate |].
    destruct pre as [| p pre'].
    + injection Hsplit as -> _. left.
      pose proof (find_none _ _ Hfind x Hx) as Hm. simpl in Hm.
      apply negb_false_iff in Hm. now apply mem_In.
    + injection Hsplit as -> Hr.
      destruct (IH _ _ Hrun pre' l post Hr x Hx) as [Henv | Hpre].
      * apply in_app_or in Henv. destruct Henv as [Hb | He].
        -- right. simpl. apply in_or_app. now left.
        -- now left.
      * right. simpl. apply in_or_app. now right.
Qed.

(** A run that stops names a line of the input and a name that line
    reads, bound neither at the start nor by any line before it. *)
Lemma run_name_error (ls : list string) :
  forall env l x, run env ls = NameError l x ->
  exists pre post,
    ls = (pre ++ l :: post)%list
    /\ In x (reads_of l)
    /\ ~ In x env
    /\ ~ In x (flat_map bound_by pre).
Proof.
  induction ls as [| a r IH]; intros env l x Hrun; simpl in Hrun.
  - discriminate.
  - destruct (find (fun y => negb (mem y env)) (reads_of a)) eqn:Hfind.
    + injection Hrun as <- <-. exists [], r.
      apply find_some in Hfind. destruct Hfind as [Hin Hm].
      apply negb_true_iff in Hm.
      repeat split; [assumption | | simpl; tauto].
      intros Henv. apply mem_In in Henv. congruence.
    + destruct (IH _ _ _ Hrun) as [pre [post [Hs [Hin [Henv Hpre]]]]].
      exists (a :: pre), post. subst r.
      repeat split; [assumption | |].
      * intros He. apply Henv. apply in_or_app. now right.
      * simpl. intros Hb. apply in_app_or in Hb. destruct Hb as [Hb | Hb].
        -- apply Henv. apply in_or_app. now left.
        -- exact (Hpre Hb).
Qed.

(** X1.  In the first tutorial every name a code line reads is a builtin
    or is bound, by an import or an assignment, on an earlier line. *)
Theorem MFH_1_names_bound (pre post : list string) (l x : string) :
  code_lines MFH_1 = (pre ++ l :: post)%list ->
  In x (reads_of l) ->
  In x builtins \/ In x (flat_map bound_by pre).
Proof.
  intros Hsplit Hx.
  assert (Hrun : exists env, run builtins (code_lines MFH_1) = Finished env)
    by (eexists; vm_compute; reflexivity).
  destruct Hrun as [env Hrun].
  exact (run_finished _ _ _ Hrun pre l post Hsplit x Hx).
Qed.

Lemma MFH_1_names_bound_witness :
  code_lines MFH_1
  = (firstn 7 (code_lines MFH_1)
       ++ "geom = sisl.get_sile('junction-2-2.XV').read_geometry()"
       :: skipn 8 (code_lines MFH_1))%list
  /\ In "sisl" (reads_of "geom = sisl.get_sile('junction-2-2.XV').read_geometry()")
  /\ (In "sisl" builtins
      \/ In "sisl" (flat_map bound_by (firstn 7 (code_lines MFH_1)))).
Proof.
  assert (H1 : code_lines MFH_1
               = (firstn 7 (code_lines MFH_1)
                    ++ "geom = sisl.get_sile('junction-2-2.XV').read_geometry()"
                    :: skipn 8 (code_lines MFH_1))%list) by reflexivity.
  assert (H2 : In "sisl" (reads_of "geom = sisl.get_sile('junction-2-2.XV').read_geometry()"))
    by (vm_compute; left; reflexivity).
  split; [exact H1 |]. split; [exact H2 |].
  exact (MFH_1_names_bound _ _ _ _ H1 H2).
Defined.

(** X2.  The third tutorial reads names that nothing binds: running its
    code lines in order stops at the construction of [MFH_elec], which
    reads [nkx]; in all, [nkx], [nky], [nkz], [H_dev] and [MDH_HC] are
    read but bound by no line and are no builtins, while [MFH_HC], the
    name the last two resemble, is bound. *)
Theorem MFH_3_unbound_names :
  run builtins (code_lines MFH_3)
  = NameError
      "MFH_elec = hubb.HubbardHamiltonian(H_elec, nkpt=[nkx, nky, nkz], U=U, kT=kT)"
      "nkx"
  /\ (exists pre post,
        code_lines MFH_3
        = (pre ++ "MFH_elec = hubb.HubbardHamiltonian(H_elec, nkpt=[nkx, nky, nkz], U=U, kT=kT)"
               :: post)%list
        /\ ~ In "nkx" builtins
        /\ ~ In "nkx" (flat_map bound_by pre))
  /\ unbound builtins (code_lines MFH_3) = ["nkx"; "nky"; "nkz"; "H_dev"; "MDH_HC"]
  /\ Forall (fun x => In x (flat_map reads_of (code_lines MFH_3))
                      /\ ~ In x builtins
                      /\ ~ In x (flat_map bound_by (code_lines MFH_3)))
            ["nkx"; "nky"; "nkz"; "H_dev"; "MDH_HC"]
  /\ In "MFH_HC" (flat_map bound_by (code_lines MFH_3)).
Proof.
  assert (Hrun : run builtins (code_lines MFH_3)
                 = NameError
                     "MFH_elec = hubb.HubbardHamiltonian(H_elec, nkpt=[nkx, nky, nkz], U=U, kT=kT)"
                     "nkx") by (vm_compute; reflexivity).
  split; [exact Hrun |].
  split.
  - destruct (run_name_error _ _ _ _ Hrun) as [pre [post [Hs [_ [Hb Hp]]]]].
    exists pre, post. repeat split; assumption.
  - split; [vm_compute; reflexivity |].
    split.
    + repeat (apply Forall_cons || apply Forall_nil);
        (split; [apply mem_In; vm_compute; reflexivity |]);
        (split; intros H; apply mem_In in H; vm_compute in H; discriminate).
    + apply mem_In. vm_compute. reflexivity.
Qed.

(** X3.  The second tutorial leaves [U], [nkx], [nky] and [nkz] for the
    reader to set: they are read by the construction of [HH], the first
    of them [U], and bound by no line. *)
Theorem MFH_2_unbound_names :
  run builtins (code_lines MFH_2)
  = NameError
      "HH = hubb.HubbardHamiltonian(Hsp2, U=U, nkpt=[nkx, nky, nkz], kT=1e-5)"
      "U"
  /\ unbound builtins (code_lines MFH_2) = ["U"; "nkx"; "nky"; "nkz"]
  /\ Forall (fun x => In x (reads_of "HH = hubb.HubbardHamiltonian(Hsp2, U=U, nkpt=[nkx, nky, nkz], kT=1e-5)")
                      /\ ~ In x builtins
                      /\ ~ In x (flat_map bound_by (code_lines MFH_2)))
            ["U"; "nkx"; "nky"; "nkz"]
  /\ In "Hsp2" (flat_map bound_by (code_lines MFH_2)).
Proof.
  split; [vm_compute; reflexivity |].
  split; [vm_compute; reflexivity |].
  split.
  - repeat (apply Forall_cons || apply Forall_nil);
      (split; [apply mem_In; vm_compute; reflexivity |]);
      (split; intros H; apply mem_In in H; vm_compute in H; discriminate).
  - apply mem_In. vm_compute. reflexivity.
Qed.

End Names.

(* ================================================================== *)
(** ** Atom indices of the third tutorial *)

Module Indices.
Import Python.
Local Open Scope Z_scope.

Lemma py_range_length (a b : Z) :
  List.length (py_range a b) = Z.to_nat (b - a).
Proof. unfold py_range. now rewrite length_map, length_seq. Qed.

Lemma py_range_In (a b i : Z) : In i (py_range a b) <-> a <= i < b.
Proof.
  unfold py_range. rewrite in_map_iff. split.
  - intros [k [<- Hk]]. apply in_seq in Hk. lia.
  - intros H. exists (Z.to_nat (i - a)). split; [lia |].
    apply in_seq. lia.
Qed.

Lemma py_range_nth (a b k d : Z) :
  0 <= k < b - a -> nth (Z.to_nat k) (py_range a b) d = a + k.
Proof.
  intros H. unfold py_range.
  rewrite (nth_indep _ d (a + Z.of_nat 0)) by (rewrite length_map, length_seq; lia).
  rewrite (map_nth (fun j => a + Z.of_nat j)), seq_nth by lia. lia.
Qed.

Lemma map_seq_shift (a b : Z) (m : nat) :
  forall s t, a + Z.of_nat s = b + Z.of_nat t ->
              map (fun k => a + Z.of_nat k) (seq s m)
              = map (fun k => b + Z.of_nat k) (seq t m).
Proof.
  induction m as [| m IH]; intros s t H; simpl; [reflexivity |].
  f_equal; [exact H | apply IH; lia].
Qed.

Lemma py_range_app (a b c : Z) :
  a <= b <= c -> py_range a c = (py_range a b ++ py_range b c)%list.
Proof.
  intros H. unfold py_range.
  replace (Z.to_nat (c - a)) with (Z.to_nat (b - a) + Z.to_nat (c - b))%nat by lia.
  rewrite seq_app, map_app. f_equal.
  apply map_seq_shift. lia.
Qed.

(** Counting from the end: the indices [-n .. -1] of a sequence of
    [total] items are its last [n] positions. *)
Lemma normalize_tail (n total : Z) :
  0 <= n <= total ->
  map (normalize total) (py_range (- n) 0) = py_range (total - n) total.
Proof.
  intros H. unfold py_range. rewrite map_map.
  replace (Z.to_nat (0 - - n)) with (Z.to_nat n) by lia.
  replace (Z.to_nat (total - (total - n))) with (Z.to_nat n) by lia.
  apply map_ext_in. intros k Hk. apply in_seq in Hk.
  unfold normalize. destruct (Z.ltb_spec (- n + Z.of_nat k) 0); lia.
Qed.

Lemma normalize_head (n total : Z) :
  map (normalize total) (py_range 0 n) = py_range 0 n.
Proof.
  unfold py_range. rewrite map_map. apply map_ext_in.
  intros k _. unfold normalize.
  destruct (Z.ltb_spec (0 + Z.of_nat k) 0); lia.
Qed.

(** X4.  The two index ranges of [elec_indx] have [n] entries each and,
    as positions in a device of [total] atoms with [2 n <= total], are
    its first [n] and its last [n] atoms, with no atom in both. *)
Theorem elec_indx_first_and_last (n total : Z) :
  0 <= n -> 2 * n <= total ->
  map (map (normalize total)) (elec_indx n)
  = [py_range 0 n; py_range (total - n) total]
  /\ Forall (fun r => List.length r = Z.to_nat n) (elec_indx n)
  /\ (forall i, In i (py_range 0 n) -> ~ In i (py_range (total - n) total)).
Proof.
  intros Hn Ht. split; [| split].
  - unfold elec_indx. simpl.
    rewrite normalize_head, normalize_tail by lia. reflexivity.
  - unfold elec_indx.
    repeat (apply Forall_cons || apply Forall_nil);
      rewrite py_range_length; f_equal; lia.
  - intros i H1 H2. apply py_range_In in H1. apply py_range_In in H2. lia.
Qed.

Lemma elec_indx_first_and_last_witness :
  0 <= 10 /\ 2 * 10 <= 145
  /\ map (map (normalize 145)) (elec_indx 10)
     = [py_range 0 10; py_range (145 - 10) 145].
Proof.
  split; [lia |]. split; [lia |].
  exact (proj1 (elec_indx_first_and_last 10 145 ltac:(lia) ltac:(lia))).
Defined.

Lemma removed_atoms_listed :
  removed_atoms = [67; 68; 69; 72; 73; 74; 77; 78; 79; 82; 83; 84; 87; 88; 89].
Proof. vm_compute. reflexivity. Qed.

Lemma tiles_16 : tiles = 16.
Proof. vm_compute. reflexivity. Qed.

Lemma removed_bounds (i : Z) : memZ i removed_atoms = true -> 67 <= i <= 89.
Proof.
  rewrite removed_atoms_listed. unfold memZ. rewrite existsb_exists.
  intros [y [Hy Heq]]. apply Z.eqb_eq in Heq. subst y.
  simpl in Hy. lia.
Qed.

Lemma filter_all {A} (f : A -> bool) (l : list A) :
  (forall x, In x l -> f x = true) -> filter f l = l.
Proof.
  induction l as [| a l IH]; intros H; simpl; [reflexivity |].
  rewrite (H a (or_introl eq_refl)). f_equal.
  apply IH. intros x Hx. apply H. now right.
Qed.

(** What is kept of a ribbon of at least 90 atoms: the atoms below 67,
    the two atoms between each pair of removed triples, and every atom
    from 90 on. *)
Lemma kept_split (total : Z) :
  90 <= total ->
  kept total
  = (py_range 0 67 ++ [70; 71; 75; 76; 80; 81; 85; 86] ++ py_range 90 total)%list.
Proof.
  intros H. unfold kept.
  rewrite (py_range_app 0 90 total) by lia.
  rewrite filter_app.
  assert (Hlow : filter (fun i => negb (memZ i removed_atoms)) (py_range 0 90)
                 = (py_range 0 67 ++ [70; 71; 75; 76; 80; 81; 85; 86])%list)
    by (vm_compute; reflexivity).
  rewrite Hlow, <- app_assoc. do 2 f_equal.
  apply filter_all. intros i Hi. apply py_range_In in Hi.
  destruct (memZ i removed_atoms) eqn:E; [| reflexivity].
  apply removed_bounds in E. lia.
Qed.

Lemma kept_length (total : Z) :
  90 <= total -> Z.of_nat (List.length (kept total)) = total - 15.
Proof.
  intros H. rewrite kept_split by lia.
  rewrite !length_app, !py_range_length. simpl List.length. lia.
Qed.

(** Below 67 the kept atoms keep their index. *)
Lemma kept_low (total k : Z) :
  90 <= total -> 0 <= k < 67 -> nth (Z.to_nat k) (kept total) 0 = k.
Proof.
  intros H Hk. rewrite kept_split by lia.
  rewrite app_nth1 by (rewrite py_range_length; lia).
  rewrite py_range_nth by lia. lia.
Qed.

(** From position 75 on the kept atoms are shifted down by 15. *)
Lemma kept_high (total k : Z) :
  90 <= total -> 75 <= k < total - 15 ->
  nth (Z.to_nat k) (kept total) 0 = k + 15.
Proof.
  intros H Hk. rewrite kept_split by lia.
  rewrite app_assoc.
  rewrite app_nth2 by (rewrite length_app, py_range_length; simpl; lia).
  rewrite length_app, py_range_length. simpl List.length.
  replace (Z.to_nat k - (Z.to_nat (67 - 0) + 8))%nat with (Z.to_nat (k - 75)) by lia.
  rewrite py_range_nth by lia. lia.
Qed.

(** X5.  For an electrode cell of [n] atoms, [6 <= n <= 67], every atom
    the tutorial removes lies strictly between the first and the last
    cell of the 16-fold tiled ribbon, and the removed atoms are
    distinct. *)
Theorem removed_atoms_interior (n : Z) :
  6 <= n <= 67 ->
  Forall (fun i => n <= i < tiles * n - n) removed_atoms
  /\ NoDup removed_atoms
  /\ Z.of_nat (List.length (kept (tiles * n))) = tiles * n - 15.
Proof.
  intros H. rewrite tiles_16. split; [| split].
  - apply Forall_forall. intros i Hi.
    assert (Hm : memZ i removed_atoms = true).
    { unfold memZ. apply existsb_exists. exists i. split; [exact Hi | apply Z.eqb_refl]. }
    apply removed_bounds in Hm. lia.
  - rewrite removed_atoms_listed.
    repeat (apply NoDup_cons; [simpl; lia |]). apply NoDup_nil.
  - apply kept_length. lia.
Qed.

Lemma removed_atoms_interior_witness :
  6 <= 10 <= 67
  /\ Forall (fun i => 10 <= i < tiles * 10 - 10) removed_atoms.
Proof.
  split; [lia |].
  exact (proj1 (removed_atoms_interior 10 ltac:(lia))).
Defined.

(** X6.  In the device that is left, the positions [elec_indx] names are
    the atoms of the first and of the last cell of the tiled ribbon:
    removing the atoms moves neither electrode. *)
Theorem electrodes_untouched (n : Z) :
  6 <= n <= 67 ->
  let device := kept (tiles * n) in
  let total := Z.of_nat (List.length device) in
  map (map (fun i => nth (Z.to_nat (normalize total i)) device 0)) (elec_indx n)
  = [py_range 0 n; py_range (tiles * n - n) (tiles * n)].
Proof.
  intros H device total.
  assert (Ht : total = tiles * n - 15).
  { unfold total, device. apply kept_length. rewrite tiles_16. lia. }
  assert (H16 : tiles = 16) by exact tiles_16.
  unfold elec_indx. simpl map. f_equal; [| f_equal].
  - rewrite <- (map_map (normalize total)
                        (fun i => nth (Z.to_nat i) device 0)).
    rewrite normalize_head.
    rewrite <- (map_id (py_range 0 n)) at 2.
    apply map_ext_in. intros i Hi. apply py_range_In in Hi.
    unfold device. apply kept_low; lia.
  - rewrite <- (map_map (normalize total)
                        (fun i => nth (Z.to_nat i) device 0)).
    rewrite normalize_tail by lia.
    unfold py_range. rewrite map_map.
    replace (Z.to_nat (total - (total - n))) with (Z.to_nat n) by lia.
    replace (Z.to_nat (tiles * n - (tiles * n - n))) with (Z.to_nat n) by lia.
    apply map_ext_in. intros k Hk. apply in_seq in Hk.
    unfold device. rewrite kept_high by lia. lia.
Qed.

Lemma electrodes_untouched_witness :
  6 <= 10 <= 67
  /\ map (map (fun i => nth (Z.to_nat (normalize
                                         (Z.of_nat (List.length (kept (tiles * 10)))) i))
                            (kept (tiles * 10)) 0))
         (elec_indx 10)
     = [py_range 0 10; py_range (tiles * 10 - 10) (tiles * 10)].
Proof.
  split; [lia |].
  exact (electrodes_untouched 10 ltac:(lia)).
Defined.

End Indices.

(* ================================================================== *)
(** ** The third tutorial and the input file agree *)

Module Handover.
Import Text Notebook Python Transport Scanner.

(** X7.  Every Hamiltonian file the input file refers to is written by
    the code the third tutorial shows, from the variable of the same
    name, which the code cells bind; the tutorial writes nothing else
    but the geometry file [device.xyz]. *)
Theorem input_files_written :
  Forall (fun f => In f (written_files MFH_3)) (referenced_files Fdf.RUN)
  /\ Forall (fun f => In f (referenced_files Fdf.RUN) \/ f = "device.xyz")
            (written_files MFH_3)
  /\ Forall (fun f =>
               exists v, In (v, [f]) (written_from MFH_3)
                         /\ f = v ++ ".nc"
                         /\ In v (flat_map bound_by (code_lines MFH_3)))
            (referenced_files Fdf.RUN).
Proof.
  split; [| split].
  - assert (H : forallb (fun f => mem f (written_files MFH_3))
                        (referenced_files Fdf.RUN) = true)
      by (vm_compute; reflexivity).
    apply forallb_Forall in H. eapply Forall_impl; [| exact H].
    intros f Hf. now apply mem_In.
  - assert (H : forallb (fun f => mem f (referenced_files Fdf.RUN)
                                  || (f =? "device.xyz"))
                        (written_files MFH_3) = true)
      by (vm_compute; reflexivity).
    apply forallb_Forall in H. eapply Forall_impl; [| exact H].
    intros f Hf. apply orb_true_iff in Hf. destruct Hf as [Hf | Hf].
    + left. now apply mem_In.
    + right. now apply String.eqb_eq.
  - assert (Hv : forall v, In v ["MFH_HC"; "MFH_elec"] ->
                           In (v, [v ++ ".nc"]) (written_from MFH_3)
                           /\ In v (flat_map bound_by (code_lines MFH_3))).
    { intros v [<- | [<- | []]]; split;
        try (apply mem_In; vm_compute; reflexivity);
        vm_compute; tauto. }
    assert (Hr : referenced_files Fdf.RUN
                 = ["MFH_HC.nc"; "MFH_elec.nc"; "MFH_elec.nc"])
      by (vm_compute; reflexivity).
    rewrite Hr.
    repeat (apply Forall_cons || apply Forall_nil).
    + exists "MFH_HC". destruct (Hv "MFH_HC") as [H1 H2]; [simpl; tauto |].
      repeat split; assumption.
    + exists "MFH_elec". destruct (Hv "MFH_elec") as [H1 H2]; [simpl; tauto |].
      repeat split; assumption.
    + exists "MFH_elec". destruct (Hv "MFH_elec") as [H1 H2]; [simpl; tauto |].
      repeat split; assumption.
Qed.

(** X8.  The electrodes handed to [NEGF] and those of the input file
    are the same, one for one and in order: the same Hamiltonian
    ([MFH_elec], written as [MFH_elec.nc]) and the same semi-infinite
    direction ([-A] as [-a1], [+A] as [+a1]); the device handed to
    [NEGF] is the one [TBT.HS] names. *)
Theorem negf_matches_input :
  Forall2 (fun p e => same_electrode p e = true)
          (negf_electrodes MFH_3) (fdf_electrodes Fdf.RUN)
  /\ List.length (negf_electrodes MFH_3) = List.length (Fdf.electrode_names Fdf.RUN)
  /\ option_map (fun d => [d ++ ".nc"]) (negf_device MFH_3)
     = Fdf.find_keyword "TBT.HS" Fdf.RUN.
Proof.
  split; [| split; vm_compute; reflexivity].
  assert (Hn : negf_electrodes MFH_3 = [("MFH_elec", "-A"); ("MFH_elec", "+A")])
    by (vm_compute; reflexivity).
  assert (Hf : fdf_electrodes Fdf.RUN
               = [ Fdf.mkElectrode "MFH_elec.nc" "POT" "-a1" ("begin", "1")
                 ; Fdf.mkElectrode "MFH_elec.nc" "POT" "+a1" ("end", "-1") ])
    by (vm_compute; reflexivity).
  rewrite Hn, Hf.
  repeat constructor.
Qed.

End Handover.

(* ================================================================== *)
(** ** Properties of the documented Hamiltonian *)

Module Decoupling.
Import Docs Hubbard MeanField.
Local Open Scope Z_scope.

Lemma total_map_ext (f g : nat -> Z) (l : list nat) :
  (forall j, f j = g j) -> total (map f l) = total (map g l).
Proof.
  intros H. induction l as [| a l IH]; simpl; [reflexivity |].
  now rewrite H, IH.
Qed.

Lemma total_map_scale (c : Z) (f : nat -> Z) (l : list nat) :
  total (map (fun j => c * f j) l) = c * total (map f l).
Proof.
  induction l as [| a l IH]; simpl; [ring |].
  rewrite IH. ring.
Qed.

(** X9.  When the number operators take their mean values, the
    documented Hamiltonian is the tight-binding part plus [U] times the
    sum over sites of [<n_up> <n_down>]: the constant term removes the
    double counting of the two mean-field terms. *)
Theorem mean_field_energy (m : model) (i : nat) :
  at_mean m ->
  exists e,
    equation (tokens equation_text) = Some e
    /\ eval m i e
       = h0 m + u m * total (map (fun j => mean m up j * mean m down j) (sites m)).
Proof.
  intros H. exists H_MFH. split; [exact equation_reads |].
  rewrite eval_H_MFH.
  rewrite (total_map_ext
             (fun j => mean m down j * n m up j + mean m up j * n m down j)
             (fun j => 2 * (mean m up j * mean m down j))).
  - rewrite total_map_scale. ring.
  - intros j. rewrite !H. ring.
Qed.

Lemma mean_field_energy_witness :
  at_mean (mkModel [0%nat; 1%nat] 5 2
                   (fun s j => Z.of_nat j + 1) (fun s j => Z.of_nat j + 1))
  /\ exists e,
       equation (tokens equation_text) = Some e
       /\ eval (mkModel [0%nat; 1%nat] 5 2
                        (fun s j => Z.of_nat j + 1) (fun s j => Z.of_nat j + 1))
               0 e
          = 15.
Proof.
  assert (H : at_mean (mkModel [0%nat; 1%nat] 5 2
                               (fun s j => Z.of_nat j + 1)
                               (fun s j => Z.of_nat j + 1)))
    by (intros s j; reflexivity).
  split; [exact H |].
  exact (mean_field_energy _ 0%nat H).
Defined.

(** X10.  The documented Hamiltonian does not tell the two spin channels
    apart: exchanging up and down, in the operators and in the
    densities, leaves it unchanged. *)
Theorem spin_flip_invariant (m : model) (i : nat) :
  exists e,
    equation (tokens equation_text) = Some e
    /\ eval (flip m) i e = eval m i e.
Proof.
  exists H_MFH. split; [exact equation_reads |].
  rewrite !eval_H_MFH. simpl.
  rewrite (total_map_ext
             (fun j => mean m up j * n m down j + mean m down j * n m up j)
             (fun j => mean m down j * n m up j + mean m up j * n m down j))
    by (intros j; ring).
  rewrite (total_map_ext
             (fun j => mean m down j * mean m up j)
             (fun j => mean m up j * mean m down j))
    by (intros j; ring).
  reflexivity.
Qed.

End Decoupling.
